(** * ConversationGuard: the Whisper JNI bridge (app/src/main/cpp/whisper_jni.cpp)

    A shallow embedding of the three JNI entry points of the bridge
    ([nativeInit], [nativeRelease], [nativeProcess]) and of the helpers
    they use, followed by the properties of the bridge.

    Conventions of the embedding.
    - C integers are [Z] with the conversions written out
      ([static_cast_int] is the unsigned-to-int conversion).
    - [float] is IEEE-754 binary32, taken from the kernel's [SpecFloat]
      (precision 24, exponent bound 128).
    - A [const char*] is modelled by the string of bytes before its
      terminating NUL, so [text[0] != 0] is "the string is not empty".
      A Java string is modelled by its modified UTF-8 bytes and a null
      reference by [None].
    - The engine (whisper.h) is an external library: its operations are
      fields of [Env], supplied per call, and hold for every engine.  Its
      context is an opaque type; [whisper_full] returns the context as the
      engine left it.
    - Everything the bridge does to the outside (log lines, engine
      calls that change the engine) is recorded in the trace of
      [State], oldest event first.
    - Reading a borrowed array past its end is undefined behaviour; it is
      the outcome [Undefined].  Allocation (the float vector, the result
      string) is taken to succeed. *)

From Stdlib Require Import ZArith QArith Lia String Ascii.
From Corelib Require Import SpecFloat.
From stdpp Require Import base option list strings gmap.

Local Open Scope Z_scope.

(** ** Machine integers *)

Definition is_uint32 (z : Z) : Prop := 0 <= z < 2 ^ 32.
Definition is_jshort (z : Z) : Prop := -32768 <= z <= 32767.

(** [static_cast<int>(hw)] for an [unsigned int]: the value modulo 2^32,
    read as a two's complement 32-bit integer. *)
Definition static_cast_int (u : Z) : Z :=
  let r := u mod 2 ^ 32 in
  if r <? 2 ^ 31 then r else r - 2 ^ 32.

(** ** binary32 *)

Definition float : Type := spec_float.
Definition f32_prec : Z := 24.
Definition f32_emax : Z := 128.

(** Conversion of an [int] to [float] (round to nearest even). *)
Definition float_of_int (z : Z) : float :=
  binary_normalize f32_prec f32_emax z 0 false.

Definition float_div (x y : float) : float := SFdiv f32_prec f32_emax x y.

(** The literal [32768.0f]. *)
Definition lit_32768_0f : float := S754_finite false 8388608 (-8).

(** The literal [0.0f], the value a [std::vector<float>(n)] starts with. *)
Definition lit_0_0f : float := S754_zero false.

(** The rational a finite binary32 denotes. *)
Definition float_value (x : float) : option Q :=
  match x with
  | S754_zero _ => Some 0%Q
  | S754_finite s m e =>
      Some (inject_Z (cond_Zopp s (Z.pos m)) * Qpower 2 e)%Q
  | S754_infinity _ | S754_nan => None
  end.

(** [buf[i] / 32768.0f]: the [jshort] is promoted to [int], converted to
    [float] and divided in binary32. *)
Definition sample_to_float (s : Z) : float :=
  float_div (float_of_int s) lit_32768_0f.

(** ** choose_num_threads *)

Definition choose_num_threads (hardware_concurrency : Z) : Z :=
  let hw := hardware_concurrency in
  let hw := if hw =? 0 then 2 else hw in
  let t := static_cast_int hw in
  let t := if t <? 2 then 2 else t in
  let t := if t >? 4 then 4 else t in
  t.

(** The clamp of the specification. *)
Definition clamp (lo hi x : Z) : Z := Z.max lo (Z.min hi x).

(** ** JNI values *)

(** A [jstring]: [None] is the null reference, [Some s] a Java string with
    modified UTF-8 bytes [s]. *)
Definition jstring : Type := option string.

(** A [jshortArray]: [None] is the null reference, [Some a] an array whose
    elements are [a]. *)
Definition jshortArray : Type := option (list Z).

Definition jboolean : Type := bool.
Definition JNI_TRUE : jboolean := true.
Definition JNI_FALSE : jboolean := false.

(** The release modes of [Release<Type>ArrayElements]: 0 (copy back and
    free the buffer), [JNI_COMMIT] and [JNI_ABORT]. *)
Inductive release_mode : Set := JNI_COPY_BACK | JNI_COMMIT | JNI_ABORT.

(** [NewStringUTF(bytes)] when the runtime constructs the string.  The
    bridge returns its result as it is. *)
Definition NewStringUTF (bytes : string) : jstring := Some bytes.

(** ** whisper.h as the bridge sees it *)

Inductive whisper_sampling_strategy : Set :=
  | WHISPER_SAMPLING_GREEDY
  | WHISPER_SAMPLING_BEAM_SEARCH.

(** The fields of [whisper_full_params] the bridge assigns, and the
    strategy the defaults were asked for. *)
Record whisper_full_params : Set := {
  strategy : whisper_sampling_strategy;
  n_threads : Z;
  offset_ms : Z;
  duration_ms : Z;
  translate : bool;
  no_context : bool;
  single_segment : bool;
  print_special : bool;
  print_progress : bool;
  print_realtime : bool;
  print_timestamps : bool
}.

Inductive log_priority : Set := ANDROID_LOG_INFO | ANDROID_LOG_ERROR.

(** An argument of a log line, kept beside its format string. *)
Inductive log_arg : Set :=
  | ArgStr (s : string)
  | ArgInt (z : Z)
  | ArgSize (n : nat).

Section Bridge.

(** The engine's opaque [whisper_context]. *)
Context {whisper_context : Type}.

(** What a call finds outside the bridge: the hardware, the JNI runtime
    and the engine. *)
Record Env : Type := {
  (** [std::thread::hardware_concurrency()], an [unsigned int] *)
  hardware_concurrency : Z;
  (** whether [GetStringUTFChars] can hand out the bytes *)
  utf_chars_available : bool;
  (** whether [GetShortArrayElements] can hand out the elements *)
  elements_available : bool;
  (** whether the elements handed out are a copy of the array *)
  elements_is_copy : bool;
  whisper_init_from_file : string -> option whisper_context;
  whisper_print_system_info : string;
  whisper_full_default_params :
    whisper_sampling_strategy -> whisper_full_params;
  (** return code and the context as the run leaves it *)
  whisper_full :
    whisper_context -> whisper_full_params -> list float -> Z ->
    Z * whisper_context;
  whisper_full_n_segments : whisper_context -> Z;
  (** [None] is a null [const char*] *)
  whisper_full_get_segment_text : whisper_context -> Z -> option string
}.

Inductive event : Type :=
  | EvLog (prio : log_priority) (fmt : string) (args : list log_arg)
  | EvInitFromFile (path : string)
  | EvFree (ctx : whisper_context)
  | EvFull (ctx : whisper_context) (params : whisper_full_params)
           (pcm : list float) (n_samples : Z).

(** The bridge's global [g_ctx] ([None] is [nullptr]; [Some c] points to
    a context in state [c]) and the trace so far. *)
Record State : Type := {
  g_ctx : option whisper_context;
  trace : list event
}.

Inductive outcome (A : Type) : Type :=
  | Returned (a : A) (st : State)
  | Undefined.
Global Arguments Returned {A} a st.
Global Arguments Undefined {A}.

(** Computations over the bridge state that may be undefined. *)
Definition M (A : Type) : Type := State -> outcome A.

Definition ret {A} (a : A) : M A := fun st => Returned a st.

Definition bind {A B} (m : M A) (f : A -> M B) : M B :=
  fun st =>
    match m st with
    | Returned a st' => f a st'
    | Undefined => Undefined
    end.

Definition undefined {A} : M A := fun _ => Undefined.

Definition emit (e : event) : M unit :=
  fun st => Returned tt {| g_ctx := g_ctx st; trace := trace st ++ [e] |}.

Definition get_g_ctx : M (option whisper_context) :=
  fun st => Returned (g_ctx st) st.

Definition set_g_ctx (c : option whisper_context) : M unit :=
  fun st => Returned tt {| g_ctx := c; trace := trace st |}.

Definition LOGI (fmt : string) (args : list log_arg) : M unit :=
  emit (EvLog ANDROID_LOG_INFO fmt args).

Definition LOGE (fmt : string) (args : list log_arg) : M unit :=
  emit (EvLog ANDROID_LOG_ERROR fmt args).

End Bridge.

Global Arguments Env : clear implicits.
Global Arguments event : clear implicits.
Global Arguments State : clear implicits.
Global Arguments outcome : clear implicits.
Global Arguments M : clear implicits.

Global Instance M_ret {C} : MRet (M C) := fun A => @ret C A.
Global Instance M_bind {C} : MBind (M C) := fun A B f m => @bind C A B m f.
Global Instance M_fmap {C} : FMap (M C) :=
  fun A B f m => @bind C A B m (fun a => ret (f a)).

Section Calls.

Context {whisper_context : Type}.
#[local] Abbreviation Env := (Env whisper_context).
#[local] Abbreviation M := (M whisper_context).

(** *** The JNI functions the bridge calls *)

(** [GetStringUTFChars(js, nullptr)] on a non-null string: the bytes, or
    a null pointer when the runtime cannot provide them. *)
Definition GetStringUTFChars (env : Env) (s : string) : option string :=
  if utf_chars_available env then Some s else None.

(** [GetShortArrayElements(jPcm, nullptr)] on a non-null array. *)
Definition GetShortArrayElements (env : Env) (a : list Z)
  : option (list Z) :=
  if elements_available env then Some a else None.

(** [ReleaseShortArrayElements(jPcm, buf, mode)]: the elements of the
    array afterwards.  With a copy, the buffer is written back unless the
    mode is [JNI_ABORT]; without one, the buffer is the array. *)
Definition ReleaseShortArrayElements (env : Env) (a buf : list Z)
    (mode : release_mode) : list Z :=
  if elements_is_copy env then
    match mode with
    | JNI_ABORT => a
    | JNI_COPY_BACK | JNI_COMMIT => buf
    end
  else buf.

(** *** The engine calls that change the engine *)

Definition whisper_free (c : whisper_context) : M unit :=
  emit (EvFree c).

Definition call_whisper_init_from_file (env : Env) (path : string)
  : M (option whisper_context) :=
  emit (EvInitFromFile path);;
  mret (whisper_init_from_file env path).

(** [whisper_full(g_ctx, wparams, pcm.data(), n_samples)]: the context
    behind [g_ctx] is left as the engine left it. *)
Definition call_whisper_full (env : Env) (c : whisper_context)
    (wparams : whisper_full_params) (pcm : list float) (n_samples : Z)
  : M Z :=
  emit (EvFull c wparams pcm n_samples);;
  let r := whisper_full env c wparams pcm n_samples in
  set_g_ctx (Some r.2);;
  mret r.1.

(** *** jstring_to_utf8 *)

Definition jstring_to_utf8 (env : Env) (js : jstring) : string :=
  match js with
  | None => ""
  | Some s =>
      match GetStringUTFChars env s with
      | None => ""
      | Some utf => utf
      end
  end.

End Calls.

(** ** The bridge *)

(** [s.empty()], and [text[0] == 0] for a non-null [const char*]. *)
Definition string_empty (s : string) : bool :=
  match s with
  | EmptyString => true
  | String _ _ => false
  end.

(** The assignments [nativeProcess] makes to the default parameters. *)
Definition set_wparams (d : whisper_full_params) (threads : Z)
  : whisper_full_params :=
  {| strategy := strategy d;
     n_threads := threads;
     offset_ms := 0;
     duration_ms := 0;
     translate := false;
     no_context := true;
     single_segment := false;
     print_special := false;
     print_progress := false;
     print_realtime := false;
     print_timestamps := false |}.

(** The conversion loop
    [for (jint i = 0; i < n_samples; ++i) pcm[i] = buf[i] / 32768.0f;]
    from index [i] on, with [fuel] iterations left.  [None] when [buf[i]]
    lies outside the borrowed elements. *)
Fixpoint convert_samples (buf : list Z) (fuel : nat) (i : Z)
    (pcm : list float) : option (list float) :=
  match fuel with
  | O => Some pcm
  | S fuel' =>
      match buf !! Z.to_nat i with
      | None => None
      | Some s =>
          convert_samples buf fuel' (i + 1)
            (<[Z.to_nat i := sample_to_float s]> pcm)
      end
  end.

(** [std::vector<float> pcm(n_samples)] followed by the conversion loop,
    for the count the bridge passes, which is positive. *)
Definition convert_pcm (buf : list Z) (n_samples : Z) : option (list float) :=
  convert_samples buf (Z.to_nat n_samples) 0
    (replicate (Z.to_nat n_samples) lit_0_0f).

(** One iteration of the segment loop on the stream [oss]. *)
Definition append_segment (i : Z) (text : option string) (oss : string)
  : string :=
  match text with
  | Some t =>
      if negb (string_empty t) then
        (if 0 <? i then oss +:+ " " else oss) +:+ t
      else oss
  | None => oss
  end.

(** The segment loop [for (int i = 0; i < n_segments; ++i) ...] from index
    [i] on, with [fuel] iterations left. *)
Fixpoint collect_from (text_of : Z -> option string) (fuel : nat) (i : Z)
    (oss : string) : string :=
  match fuel with
  | O => oss
  | S fuel' =>
      collect_from text_of fuel' (i + 1) (append_segment i (text_of i) oss)
  end.

Definition collect_segments (text_of : Z -> option string) (n_segments : Z)
  : string :=
  collect_from text_of (Z.to_nat n_segments) 0 "".

(** An entry point whose first statement is
    [std::lock_guard<std::mutex> lock(g_mutex);]: the rest of the function
    runs holding [g_mutex], which every return path gives back. *)
Record guarded (C A : Type) : Type := lock_guard { guarded_body : M C A }.
Global Arguments lock_guard {C A} _.
Global Arguments guarded_body {C A} _.

Section EntryPoints.

Context {whisper_context : Type}.
#[local] Abbreviation Env := (Env whisper_context).
#[local] Abbreviation M := (M whisper_context).

(** *** nativeInit(modelPath: String): Boolean *)

Definition nativeInit_body (env : Env) (jModelPath : jstring) : M jboolean :=
  ctx ← get_g_ctx;
  match ctx with
  | Some c =>
      LOGI "Releasing previous Whisper context before init" [];;
      whisper_free c;;
      set_g_ctx None
  | None => mret tt
  end;;
  match jModelPath with
  | None =>
      LOGE "nativeInit: null model path" [];;
      mret JNI_FALSE
  | Some _ =>
      let modelPath := jstring_to_utf8 env jModelPath in
      if string_empty modelPath then
        LOGE "nativeInit: empty model path" [];;
        mret JNI_FALSE
      else
        LOGI "Loading Whisper model from: %s" [ArgStr modelPath];;
        loaded ← call_whisper_init_from_file env modelPath;
        set_g_ctx loaded;;
        match loaded with
        | None =>
            LOGE "whisper_init_from_file() failed" [];;
            mret JNI_FALSE
        | Some _ =>
            let sys_info := whisper_print_system_info env in
            LOGI "Whisper system info: %s" [ArgStr sys_info];;
            mret JNI_TRUE
        end
  end.

Definition nativeInit (env : Env) (jModelPath : jstring)
  : guarded whisper_context jboolean :=
  lock_guard (nativeInit_body env jModelPath).

(** *** nativeRelease(): void *)

Definition nativeRelease_body : M unit :=
  ctx ← get_g_ctx;
  match ctx with
  | Some c =>
      LOGI "Releasing Whisper context" [];;
      whisper_free c;;
      set_g_ctx None
  | None => mret tt
  end.

Definition nativeRelease : guarded whisper_context unit :=
  lock_guard nativeRelease_body.

(** *** nativeProcess(pcm: ShortArray, length: Int): String?

    The result is the returned [jstring] together with the elements of the
    caller's array when the call returns. *)

Definition nativeProcess_body (env : Env) (jPcm : jshortArray) (length : Z)
  : M (jstring * jshortArray) :=
  ctx ← get_g_ctx;
  match ctx with
  | None =>
      LOGE "nativeProcess: g_ctx is null – model not initialized" [];;
      mret (NewStringUTF "", jPcm)
  | Some c =>
      (* [if (!jPcm || length <= 0)], one branch per disjunct *)
      match jPcm with
      | None =>
          LOGE "nativeProcess: invalid PCM array or length=%d" [ArgInt length];;
          mret (NewStringUTF "", jPcm)
      | Some a =>
          if length <=? 0 then
            LOGE "nativeProcess: invalid PCM array or length=%d"
              [ArgInt length];;
            mret (NewStringUTF "", jPcm)
          else
            let n_samples := length in
            match GetShortArrayElements env a with
            | None =>
                LOGE "nativeProcess: GetShortArrayElements returned null" [];;
                mret (NewStringUTF "", jPcm)
            | Some buf =>
                match convert_pcm buf n_samples with
                | None => undefined
                | Some pcm =>
                    let a' := ReleaseShortArrayElements env a buf JNI_ABORT in
                    let threads :=
                      choose_num_threads (hardware_concurrency env) in
                    let wparams :=
                      set_wparams
                        (whisper_full_default_params env
                           WHISPER_SAMPLING_GREEDY)
                        threads in
                    LOGI "nativeProcess: n_samples=%d, using %d threads"
                      [ArgInt n_samples; ArgInt threads];;
                    r ← call_whisper_full env c wparams pcm n_samples;
                    if negb (r =? 0) then
                      LOGE "whisper_full() failed, ret=%d" [ArgInt r];;
                      mret (NewStringUTF "", Some a')
                    else
                      ctx' ← get_g_ctx;
                      match ctx' with
                      | None => undefined (* a null context is dereferenced *)
                      | Some c' =>
                          let n_segments := whisper_full_n_segments env c' in
                          let result :=
                            collect_segments
                              (whisper_full_get_segment_text env c')
                              n_segments in
                          LOGI "nativeProcess: got transcript length=%zu"
                            [ArgSize (String.length result)];;
                          mret (NewStringUTF result, Some a')
                      end
                end
            end
      end
  end.

Definition nativeProcess (env : Env) (jPcm : jshortArray) (length : Z)
  : guarded whisper_context (jstring * jshortArray) :=
  lock_guard (nativeProcess_body env jPcm length).

(** A call on a thread that finds [g_mutex] free: the lock is taken, the
    body runs, the lock is given back. *)
Definition call {A} (f : guarded whisper_context A) (st : State whisper_context)
  : outcome whisper_context A :=
  guarded_body f st.

End EntryPoints.

(** ** Concurrent callers

    Threads of the managed runtime call the three entry points at any time.
    A thread that has called one is first blocked in the constructor of
    the [lock_guard], then runs the body holding [g_mutex], and gives the
    mutex back when the body returns. *)

Section Threads.

Context {whisper_context : Type}.
#[local] Abbreviation Env := (Env whisper_context).
#[local] Abbreviation State := (State whisper_context).

Inductive request : Type :=
  | ReqInit (env : Env) (jModelPath : jstring)
  | ReqRelease
  | ReqProcess (env : Env) (jPcm : jshortArray) (length : Z).

Inductive response : Type :=
  | RespInit (ok : jboolean)
  | RespRelease
  | RespProcess (r : jstring * jshortArray).

(** The entry point a request calls, its result wrapped. *)
Definition entry (r : request) : guarded whisper_context response :=
  match r with
  | ReqInit env jModelPath =>
      lock_guard (RespInit <$> guarded_body (nativeInit env jModelPath))
  | ReqRelease =>
      lock_guard (guarded_body nativeRelease;; mret RespRelease)
  | ReqProcess env jPcm length =>
      lock_guard (RespProcess <$> guarded_body (nativeProcess env jPcm length))
  end.

Inductive thread : Type :=
  | Outside
  | Blocked (r : request)
  | Inside (r : request).

(** [g_mutex] is [Some t] when thread [t] owns it.  [busy] counts the
    bodies being executed: it goes up when a body is entered and down when
    it is left. *)
Record machine : Type := {
  g_mutex : option nat;
  busy : nat;
  bridge : State;
  threads : gmap nat thread
}.

(** What an observer sees: a thread calls an entry point, enters its body
    (the [lock_guard] is constructed), returns from it (the [lock_guard]
    is destroyed). *)
Inductive label : Type :=
  | LCall (t : nat) (r : request)
  | LEnter (t : nat) (r : request)
  | LReturn (t : nat) (r : request) (a : response).

Inductive step : machine -> label -> machine -> Prop :=
  | step_call m t r :
      threads m !! t = Some Outside ->
      step m (LCall t r)
        {| g_mutex := g_mutex m;
           busy := busy m;
           bridge := bridge m;
           threads := <[t := Blocked r]> (threads m) |}
  | step_lock m t r :
      threads m !! t = Some (Blocked r) ->
      g_mutex m = None ->
      step m (LEnter t r)
        {| g_mutex := Some t;
           busy := S (busy m);
           bridge := bridge m;
           threads := <[t := Inside r]> (threads m) |}
  | step_return m t r a st' :
      threads m !! t = Some (Inside r) ->
      guarded_body (entry r) (bridge m) = Returned a st' ->
      step m (LReturn t r a)
        {| g_mutex := None;
           busy := pred (busy m);
           bridge := st';
           threads := <[t := Outside]> (threads m) |}.

Inductive run : machine -> list label -> machine -> Prop :=
  | run_done m : run m [] m
  | run_step m l m' ls m'' :
      step m l m' -> run m' ls m'' -> run m (l :: ls) m''.

(** No thread is in the bridge and the mutex is free. *)
Definition initial (m : machine) : Prop :=
  g_mutex m = None /\ busy m = 0%nat /\
  forall t th, threads m !! t = Some th -> th = Outside.

(** The mutex is owned by the thread inside a body, and by none when no
    thread is. *)
Definition mutex_inv (m : machine) : Prop :=
  (forall t r, threads m !! t = Some (Inside r) -> g_mutex m = Some t) /\
  (forall t, g_mutex m = Some t -> exists r, threads m !! t = Some (Inside r)) /\
  busy m = match g_mutex m with Some _ => 1%nat | None => 0%nat end.

(** Bodies are entered and left one at a time: with [inside] the thread in
    a body, if any, every entry finds no thread inside and every return is
    by the thread inside. *)
Fixpoint serial (inside : option nat) (ls : list label) : bool :=
  match ls with
  | [] => true
  | LCall _ _ :: ls' => serial inside ls'
  | LEnter t _ :: ls' =>
      match inside with
      | None => serial (Some t) ls'
      | Some _ => false
      end
  | LReturn t _ _ :: ls' =>
      match inside with
      | Some t' => Nat.eqb t t' && serial None ls'
      | None => false
      end
  end.

(** The requests whose bodies have returned, in order of return. *)
Definition completed (ls : list label) : list request :=
  omap (fun l => match l with LReturn _ r _ => Some r | _ => None end) ls.

(** The bodies of [rs] one after the other on a single thread. *)
Fixpoint replay (rs : list request) (st : State) : option State :=
  match rs with
  | [] => Some st
  | r :: rs' =>
      match call (entry r) st with
      | Returned _ st' => replay rs' st'
      | Undefined => None
      end
  end.

End Threads.

Global Arguments request : clear implicits.
Global Arguments response : clear implicits.
Global Arguments thread : clear implicits.
Global Arguments machine : clear implicits.
Global Arguments label : clear implicits.

(** ** Definitions used by the statements *)

(** The exact quotient [s / 32768] is the value of [sample_to_float s]. *)
Definition sample_exact (s : Z) : bool :=
  match float_value (sample_to_float s) with
  | Some q => Qeq_bool q (s # 32768)
  | None => false
  end.

(** [f] holds on every integer whose binary digits are those of [p]
    followed by [bits] more digits. *)
Fixpoint all_bits (bits : nat) (p : Z) (f : Z -> bool) : bool :=
  match bits with
  | O => f p
  | S b => all_bits b (2 * p) f && all_bits b (2 * p + 1) f
  end.

(** The texts the engine reports for segments [0 .. n_segments - 1]. *)
Definition segment_texts (text_of : Z -> option string) (n_segments : Z)
  : list (option string) :=
  text_of <$> seqZ 0 n_segments.

(** A reported text that is neither null nor empty. *)
Definition nonempty_text (text : option string) : option string :=
  match text with
  | Some t => if string_empty t then None else Some t
  | None => None
  end.

(** The transcript in the words of the specification: the texts that are
    neither null nor empty, in order, with one space between neighbours. *)
Definition spec_transcript (texts : list (option string)) : string :=
  String.concat " " (omap nonempty_text texts).

(** Every kept text preceded by a space: what the loop appends from
    index 1 on. *)
Fixpoint spaced (texts : list string) : string :=
  match texts with
  | [] => ""
  | t :: ts => " " +:+ t +:+ spaced ts
  end.

Definition is_EvFull {C} (e : event C) : bool :=
  match e with
  | EvFull _ _ _ _ => true
  | _ => false
  end.

Definition is_EvFree {C} (e : event C) : bool :=
  match e with
  | EvFree _ => true
  | _ => false
  end.

(** The parameters [nativeProcess] hands to the engine. *)
Definition bridge_wparams {C} (env : Env C) : whisper_full_params :=
  set_wparams (whisper_full_default_params env WHISPER_SAMPLING_GREEDY)
    (choose_num_threads (hardware_concurrency env)).

(** The state after the installed context, if there is one, has been
    freed behind the log line [fmt]. *)
Definition discarded {C} (fmt : string) (st : State C) : State C :=
  match g_ctx st with
  | Some c =>
      {| g_ctx := None;
         trace := trace st ++ [EvLog ANDROID_LOG_INFO fmt []; EvFree c] |}
  | None => st
  end.

(** What the engine's run returns when [nativeProcess] reaches it with
    context [c], array [a] and count [length]. *)
Definition engine_run {C} (env : Env C) (c : C) (a : list Z) (length : Z)
  : Z * C :=
  whisper_full env c (bridge_wparams env)
    (sample_to_float <$> take (Z.to_nat length) a) length.

(** The state after one more event. *)
Definition logged {C} (st : State C) (e : event C) : State C :=
  {| g_ctx := g_ctx st; trace := trace st ++ [e] |}.

(** *** A scripted engine for the examples

    Its context is the list of segment texts of the last run.  Loading
    gives an empty context unless the path is ["missing.bin"]; a run
    returns [ret] and leaves [segments]. *)
Definition scripted_params (s : whisper_sampling_strategy)
  : whisper_full_params :=
  {| strategy := s;
     n_threads := 4;
     offset_ms := 0;
     duration_ms := 0;
     translate := false;
     no_context := false;
     single_segment := false;
     print_special := false;
     print_progress := true;
     print_realtime := false;
     print_timestamps := true |}.

Definition scripted_env (hw : Z) (pinned : bool) (ret : Z)
    (segments : list (option string)) : Env (list (option string)) :=
  {| hardware_concurrency := hw;
     utf_chars_available := true;
     elements_available := pinned;
     elements_is_copy := true;
     whisper_init_from_file :=
       fun path => if String.eqb path "missing.bin" then None else Some [];
     whisper_print_system_info := "NEON = 1";
     whisper_full_default_params := scripted_params;
     whisper_full := fun _ _ _ _ => (ret, segments);
     whisper_full_n_segments := fun c => Z.of_nat (length c);
     whisper_full_get_segment_text :=
       fun c i => if i <? 0 then None else mjoin (c !! Z.to_nat i) |}.

(** The bridge before any call, and with a context installed. *)
Definition fresh : State (list (option string)) :=
  {| g_ctx := None; trace := [] |}.

Definition loaded : State (list (option string)) :=
  {| g_ctx := Some []; trace := [] |}.

(** *** Two callers

    Two threads outside the bridge and a context installed. *)
Definition demo_request : request (list (option string)) :=
  ReqProcess (scripted_env 4 true 0 [Some "hello"]) (Some [1; 2]) 2.

Definition two_callers : machine (list (option string)) :=
  {| g_mutex := None;
     busy := 0;
     bridge := loaded;
     threads := {[ 0%nat := Outside; 1%nat := Outside ]} |}.

(** Both threads call [nativeProcess]; thread 0 runs its body and returns
    the transcript; thread 1 then enters. *)
Definition demo_labels : list (label (list (option string))) :=
  [LCall 0 demo_request;
   LCall 1 demo_request;
   LEnter 0 demo_request;
   LReturn 0 demo_request (RespProcess (NewStringUTF "hello", Some [1; 2]));
   LEnter 1 demo_request].

(** *** Sessions

    A caller on one thread makes the requests [rs] one after the other;
    [serve] gives the responses and the final state, or [None] when one
    of the calls is undefined. *)
Fixpoint serve {C} (rs : list (request C)) (st : State C)
  : option (list response * State C) :=
  match rs with
  | [] => Some ([], st)
  | r :: rs' =>
      match call (entry r) st with
      | Returned a st' =>
          match serve rs' st' with
          | Some (resps, st'') => Some (a :: resps, st'')
          | None => None
          end
      | Undefined => None
      end
  end.

(** 1 when a context is installed, 0 when [g_ctx] is null. *)
Definition installed {C} (st : State C) : nat :=
  match g_ctx st with
  | Some _ => 1
  | None => 0
  end.

(** The response of a [nativeInit] that loaded a context. *)
Definition is_load (a : response) : bool :=
  match a with
  | RespInit ok => ok
  | _ => false
  end.

Definition is_EvInitFromFile {C} (e : event C) : bool :=
  match e with
  | EvInitFromFile _ => true
  | _ => false
  end.

(** How many of the events satisfy [p]. *)
Definition count_events {C} (p : event C -> bool) (evs : list (event C))
  : nat :=
  List.length (List.filter p evs).

(** The texts of the segments the context [c] reports. *)
Definition reported_texts {C} (env : Env C) (c : C) : list (option string) :=
  segment_texts (whisper_full_get_segment_text env c)
    (whisper_full_n_segments env c).

(** A session of three requests: load a model, transcribe, release. *)
Definition demo_session : list (request (list (option string))) :=
  [ReqInit (scripted_env 4 true 0 []) (Some "ggml-base.bin");
   ReqProcess (scripted_env 4 true 0 [Some "hello"]) (Some [1; 2]) 2;
   ReqRelease].

(** * Properties *)

(** ** Thread count *)

Lemma static_cast_int_small (u : Z) :
  0 <= u < 2 ^ 31 -> static_cast_int u = u.
Proof.
  intros Hu. unfold static_cast_int.
  rewrite Z.mod_small by lia.
  destruct (Z.ltb_spec u (2 ^ 31)); lia.
Qed.

Lemma static_cast_int_large (u : Z) :
  2 ^ 31 <= u < 2 ^ 32 -> static_cast_int u = u - 2 ^ 32.
Proof.
  intros Hu. unfold static_cast_int.
  rewrite Z.mod_small by lia.
  destruct (Z.ltb_spec u (2 ^ 31)); lia.
Qed.

Lemma choose_num_threads_range (hw : Z) : 2 <= choose_num_threads hw <= 4.
Proof.
  unfold choose_num_threads.
  repeat match goal with
         | |- context [if ?b then _ else _] => destruct b eqn:?
         end; lia.
Qed.

Lemma choose_num_threads_wrapped (hw : Z) :
  2 ^ 31 <= hw < 2 ^ 32 -> choose_num_threads hw = 2.
Proof.
  intros Hhw. unfold choose_num_threads.
  destruct (Z.eqb_spec hw 0); [lia|].
  rewrite static_cast_int_large by lia.
  destruct (Z.ltb_spec (hw - 2 ^ 32) 2); [|lia].
  reflexivity.
Qed.

(** C4, as stated, fails: a reported concurrency of 2^31 is an
    [unsigned int], its clamp to [2, 4] is 4, and the bridge uses 2
    threads because the conversion to [int] makes it negative. *)
Lemma choose_num_threads_not_clamp :
  is_uint32 2147483648 /\
  clamp 2 4 2147483648 = 4 /\
  choose_num_threads 2147483648 = 2.
Proof. unfold is_uint32. repeat split; try reflexivity; lia. Qed.

(** C4 (amended): for every reported hardware concurrency [hw] the thread
    count lies in [2, 4]; when [hw] is below 2^31 it is [hw] clamped to
    [2, 4], an unreported concurrency (0) giving 2; and 0, 1, 3, 16 give
    2, 2, 3, 4. *)
Theorem choose_num_threads_clamp (hw : Z) (Hhw : is_uint32 hw) :
  2 <= choose_num_threads hw <= 4 /\
  (hw < 2 ^ 31 -> choose_num_threads hw = clamp 2 4 hw) /\
  (hw = 0 -> choose_num_threads hw = 2) /\
  choose_num_threads 0 = 2 /\
  choose_num_threads 1 = 2 /\
  choose_num_threads 3 = 3 /\
  choose_num_threads 16 = 4.
Proof.
  split; [apply choose_num_threads_range|].
  split; [|split; [intros ->; reflexivity | repeat split]].
  intros Hlt. destruct Hhw as [Hge _].
  unfold choose_num_threads, clamp.
  destruct (Z.eqb_spec hw 0) as [->|Hnz]; [reflexivity|].
  rewrite static_cast_int_small by lia.
  destruct (Z.ltb_spec hw 2); destruct (Z.gtb_spec hw 4);
    try destruct (Z.gtb_spec 2 4); lia.
Qed.

(** A reported concurrency of 3. *)
Lemma choose_num_threads_clamp_witness :
  is_uint32 3 /\
  (2 <= choose_num_threads 3 <= 4 /\
   (3 < 2 ^ 31 -> choose_num_threads 3 = clamp 2 4 3) /\
   (3 = 0 -> choose_num_threads 3 = 2) /\
   choose_num_threads 0 = 2 /\
   choose_num_threads 1 = 2 /\
   choose_num_threads 3 = 3 /\
   choose_num_threads 16 = 4).
Proof.
  assert (H : is_uint32 3) by (unfold is_uint32; lia).
  split; [exact H | exact (choose_num_threads_clamp 3 H)].
Defined.

(** ** Sample conversion *)

Lemma all_bits_spec (f : Z -> bool) (bits : nat) (p k : Z) :
  all_bits bits p f = true ->
  p * 2 ^ Z.of_nat bits <= k < (p + 1) * 2 ^ Z.of_nat bits ->
  f k = true.
Proof.
  revert p. induction bits as [|b IH]; intros p Hall Hk.
  - cbn in *. replace k with p by lia. exact Hall.
  - cbn [all_bits] in Hall. apply andb_prop in Hall as [Hlo Hhi].
    rewrite Nat2Z.inj_succ, Z.pow_succ_r in Hk by lia.
    destruct (Z.lt_ge_cases k ((2 * p + 1) * 2 ^ Z.of_nat b)).
    + apply (IH (2 * p)); [exact Hlo | lia].
    + apply (IH (2 * p + 1)); [exact Hhi | lia].
Qed.

Lemma sample_exact_table :
  all_bits 16 0 (fun k => sample_exact (k - 32768)) = true.
Proof. vm_compute. reflexivity. Qed.

Lemma sample_exact_jshort (s : Z) : is_jshort s -> sample_exact s = true.
Proof.
  intros Hs. unfold is_jshort in Hs.
  replace s with (s + 32768 - 32768) by lia.
  apply (all_bits_spec (fun k => sample_exact (k - 32768)) 16 0).
  - exact sample_exact_table.
  - change (2 ^ Z.of_nat 16) with 65536. lia.
Qed.

Lemma sample_to_float_value (s : Z) :
  is_jshort s ->
  exists q, float_value (sample_to_float s) = Some q /\ (q == s # 32768)%Q.
Proof.
  intros Hs. apply sample_exact_jshort in Hs. unfold sample_exact in Hs.
  destruct (float_value (sample_to_float s)) as [q|]; [|discriminate].
  exists q. split; [reflexivity | by apply Qeq_bool_eq].
Qed.

Lemma convert_samples_in_range (buf : list Z) (fuel k : nat)
    (pcm : list float) :
  length pcm = (k + fuel)%nat ->
  (k + fuel <= length buf)%nat ->
  convert_samples buf fuel (Z.of_nat k) pcm =
    Some (take k pcm ++ (sample_to_float <$> take fuel (drop k buf))).
Proof.
  revert k pcm.
  induction fuel as [|fuel IH]; intros k pcm Hlen Hle; cbn [convert_samples].
  - rewrite take_0, app_nil_r. f_equal. rewrite take_ge; [done | lia].
  - rewrite Nat2Z.id.
    destruct (lookup_lt_is_Some_2 buf k) as [s Hs]; [lia|].
    rewrite Hs.
    replace (Z.of_nat k + 1) with (Z.of_nat (S k)) by lia.
    rewrite IH; [| rewrite length_insert; lia | lia].
    f_equal.
    rewrite (drop_S _ _ _ Hs). cbn [take fmap list_fmap].
    rewrite (take_S_r _ _ (sample_to_float s)).
    + rewrite <- app_assoc. cbn. rewrite take_insert_ge by lia. done.
    + apply list_lookup_insert_eq. lia.
Qed.

Lemma convert_samples_out_of_range (buf : list Z) (fuel k : nat)
    (pcm : list float) :
  (k <= length buf)%nat ->
  (length buf < k + fuel)%nat ->
  convert_samples buf fuel (Z.of_nat k) pcm = None.
Proof.
  revert k pcm.
  induction fuel as [|fuel IH]; intros k pcm Hk Hlt; cbn [convert_samples].
  - lia.
  - rewrite Nat2Z.id. destruct (buf !! k) as [s|] eqn:Hs; [|done].
    apply lookup_lt_Some in Hs.
    replace (Z.of_nat k + 1) with (Z.of_nat (S k)) by lia.
    apply IH; lia.
Qed.

(** Within the borrowed elements the loop fills the vector with the
    converted samples, in order. *)
Lemma convert_pcm_in_range (buf : list Z) (n_samples : Z) :
  n_samples <= Z.of_nat (length buf) ->
  convert_pcm buf n_samples =
    Some (sample_to_float <$> take (Z.to_nat n_samples) buf).
Proof.
  intros Hn. unfold convert_pcm.
  rewrite (convert_samples_in_range buf (Z.to_nat n_samples) 0).
  - by rewrite take_0, drop_0.
  - by rewrite length_replicate.
  - lia.
Qed.

(** A count beyond the borrowed elements makes the loop read past them. *)
Lemma convert_pcm_out_of_range (buf : list Z) (n_samples : Z) :
  Z.of_nat (length buf) < n_samples ->
  convert_pcm buf n_samples = None.
Proof.
  intros Hn. unfold convert_pcm.
  apply (convert_samples_out_of_range buf (Z.to_nat n_samples) 0); lia.
Qed.

(** ** The paths through nativeProcess *)

Ltac unfold_bridge :=
  unfold call, nativeProcess, nativeProcess_body, nativeInit, nativeInit_body,
    nativeRelease, nativeRelease_body, call_whisper_full,
    call_whisper_init_from_file, whisper_free, LOGE, LOGI, emit, get_g_ctx,
    set_g_ctx, undefined, mbind, M_bind, bind, mret, M_ret, ret, logged in *;
  cbn [guarded_body g_ctx trace] in *.

Section ProcessPaths.

Context {C : Type} (env : Env C) (st : State C).

Lemma release_abort_keeps (a : list Z) :
  ReleaseShortArrayElements env a a JNI_ABORT = a.
Proof. unfold ReleaseShortArrayElements. by destruct (elements_is_copy env). Qed.

(** The guards at the top of the function. *)
Lemma nativeProcess_rejected (jPcm : jshortArray) (length : Z) :
  g_ctx st = None \/ jPcm = None \/ length <= 0 ->
  exists fmt args,
    call (nativeProcess env jPcm length) st =
      Returned (NewStringUTF "", jPcm)
        (logged st (EvLog ANDROID_LOG_ERROR fmt args)).
Proof.
  intros H. unfold call, nativeProcess, logged. cbn [guarded_body].
  unfold nativeProcess_body, mbind, M_bind, bind, get_g_ctx.
  destruct (g_ctx st) as [c|] eqn:Hc;
    [|rewrite <- Hc; do 2 eexists; reflexivity].
  destruct jPcm as [a|]; [|rewrite <- Hc; do 2 eexists; reflexivity].
  destruct (Z.leb_spec length 0);
    [rewrite <- Hc; do 2 eexists; reflexivity|].
  destruct H as [H|[H|H]]; by try lia.
Qed.

(** The runtime does not hand out the elements. *)
Lemma nativeProcess_not_pinned (c : C) (a : list Z) (length : Z) :
  g_ctx st = Some c -> 0 < length -> elements_available env = false ->
  exists fmt args,
    call (nativeProcess env (Some a) length) st =
      Returned (NewStringUTF "", Some a)
        (logged st (EvLog ANDROID_LOG_ERROR fmt args)).
Proof.
  intros Hc Hlen Hpin. unfold_bridge. rewrite Hc.
  destruct (Z.leb_spec length 0); [lia|].
  unfold GetShortArrayElements. rewrite Hpin.
  rewrite <- Hc. do 2 eexists. reflexivity.
Qed.

(** The count exceeds the array. *)
Lemma nativeProcess_overrun (c : C) (a : list Z) (length : Z) :
  g_ctx st = Some c -> elements_available env = true ->
  Z.of_nat (List.length a) < length ->
  call (nativeProcess env (Some a) length) st = Undefined.
Proof.
  intros Hc Hpin Hlen. unfold_bridge. rewrite Hc.
  destruct (Z.leb_spec length 0); [lia|].
  unfold GetShortArrayElements. rewrite Hpin.
  by rewrite convert_pcm_out_of_range.
Qed.

(** The engine is run. *)
Lemma nativeProcess_engine (c : C) (a : list Z) (length : Z) :
  g_ctx st = Some c -> elements_available env = true ->
  0 < length <= Z.of_nat (List.length a) ->
  let pcm := sample_to_float <$> take (Z.to_nat length) a in
  let r := whisper_full env c (bridge_wparams env) pcm length in
  exists fmt1 args1 prio2 fmt2 args2,
    call (nativeProcess env (Some a) length) st =
      Returned
        (NewStringUTF
           (if r.1 =? 0
            then collect_segments (whisper_full_get_segment_text env r.2)
                   (whisper_full_n_segments env r.2)
            else ""),
         Some a)
        {| g_ctx := Some r.2;
           trace := trace st ++
             [EvLog ANDROID_LOG_INFO fmt1 args1;
              EvFull c (bridge_wparams env) pcm length;
              EvLog prio2 fmt2 args2] |}.
Proof.
  intros Hc Hpin Hlen pcm r. unfold_bridge. rewrite Hc.
  destruct (Z.leb_spec length 0); [lia|].
  unfold GetShortArrayElements. rewrite Hpin.
  rewrite convert_pcm_in_range by lia.
  rewrite release_abort_keeps.
  fold (bridge_wparams env). fold pcm. fold r.
  destruct (Z.eqb_spec r.1 0); cbn [negb g_ctx trace];
    rewrite <- !app_assoc; cbn [app]; do 5 eexists; reflexivity.
Qed.

End ProcessPaths.

(** ** The segment loop *)

Lemma append_cons (a : ascii) (s1 s2 : string) :
  String a s1 +:+ s2 = String a (s1 +:+ s2).
Proof. reflexivity. Qed.

Lemma append_nil_r (s : string) : s +:+ "" = s.
Proof.
  induction s as [|a s IH]; [done|]. by rewrite append_cons, IH.
Qed.

Lemma append_assoc (s1 s2 s3 : string) :
  s1 +:+ s2 +:+ s3 = (s1 +:+ s2) +:+ s3.
Proof.
  induction s1 as [|a s1 IH]; [done|]. by rewrite !append_cons, IH.
Qed.

Lemma string_empty_append (s1 s2 : string) :
  string_empty s1 = false -> string_empty (s1 +:+ s2) = false.
Proof. by destruct s1. Qed.

Lemma concat_space_cons (t : string) (ts : list string) :
  String.concat " " (t :: ts) = t +:+ spaced ts.
Proof.
  revert t. induction ts as [|t' ts IH]; intros t.
  - cbn. by rewrite append_nil_r.
  - change (String.concat " " (t :: t' :: ts))
      with (t +:+ " " +:+ String.concat " " (t' :: ts)).
    by rewrite IH.
Qed.

(** From index 1 on every kept text goes out behind a space. *)
Lemma collect_from_spaced (text_of : Z -> option string) (fuel : nat)
    (i : Z) (oss : string) :
  0 < i ->
  collect_from text_of fuel i oss =
    oss +:+ spaced (omap nonempty_text (text_of <$> seqZ i (Z.of_nat fuel))).
Proof.
  revert i oss. induction fuel as [|fuel IH]; intros i oss Hi.
  - cbn. by rewrite append_nil_r.
  - cbn [collect_from]. rewrite IH by lia.
    rewrite (seqZ_cons i) by lia.
    replace (Z.pred (Z.of_nat (S fuel))) with (Z.of_nat fuel) by lia.
    replace (Z.succ i) with (i + 1) by lia.
    cbn [fmap list_fmap omap list_omap].
    unfold append_segment, nonempty_text at 2.
    destruct (text_of i) as [t|]; [|done].
    destruct (string_empty t); cbn [negb]; [done|].
    destruct (Z.ltb_spec 0 i); [|lia].
    cbn [spaced]. by rewrite !append_assoc.
Qed.

Lemma collect_segments_none (text_of : Z -> option string) (n : Z) :
  n <= 0 -> collect_segments text_of n = "".
Proof.
  intros Hn. unfold collect_segments.
  by replace (Z.to_nat n) with 0%nat by lia.
Qed.

Lemma segment_texts_cons (text_of : Z -> option string) (n : Z) :
  0 < n ->
  segment_texts text_of n = text_of 0 :: (text_of <$> seqZ 1 (n - 1)).
Proof.
  intros Hn. unfold segment_texts. rewrite seqZ_cons by lia.
  by replace (Z.pred n) with (n - 1) by lia.
Qed.

Lemma collect_segments_unfold (text_of : Z -> option string) (n : Z) :
  0 < n ->
  collect_segments text_of n =
    match nonempty_text (text_of 0) with
    | Some t => t
    | None => ""
    end +:+ spaced (omap nonempty_text (text_of <$> seqZ 1 (n - 1))).
Proof.
  intros Hn. unfold collect_segments.
  destruct (Z.to_nat n) as [|fuel] eqn:Hfuel; [lia|].
  cbn [collect_from]. rewrite collect_from_spaced by lia.
  replace (Z.of_nat fuel) with (n - 1) by lia. f_equal.
  unfold append_segment, nonempty_text.
  destruct (text_of 0) as [t|]; [|done].
  by destruct (string_empty t).
Qed.

(** When segment 0 has a text, the loop's result is the transcript of the
    specification. *)
Lemma collect_segments_first_kept (text_of : Z -> option string) (n : Z)
    (t : string) :
  0 < n -> nonempty_text (text_of 0) = Some t ->
  collect_segments text_of n = spec_transcript (segment_texts text_of n).
Proof.
  intros Hn Ht. rewrite collect_segments_unfold by done.
  unfold spec_transcript. rewrite segment_texts_cons by done.
  cbn [omap list_omap]. rewrite Ht. by rewrite concat_space_cons.
Qed.

(** When segment 0 is null or empty, the first text kept afterwards goes
    out behind a space. *)
Lemma collect_segments_first_skipped (text_of : Z -> option string) (n : Z) :
  0 < n -> nonempty_text (text_of 0) = None ->
  collect_segments text_of n =
    match omap nonempty_text (segment_texts text_of n) with
    | [] => ""
    | _ :: _ => " " +:+ spec_transcript (segment_texts text_of n)
    end.
Proof.
  intros Hn Ht. rewrite collect_segments_unfold by done.
  unfold spec_transcript. rewrite segment_texts_cons by done.
  cbn [omap list_omap]. rewrite Ht.
  destruct (omap nonempty_text _) as [|t ts]; [done|].
  by rewrite concat_space_cons.
Qed.

Lemma nonempty_text_Some (text : option string) (t : string) :
  nonempty_text text = Some t <-> text = Some t /\ string_empty t = false.
Proof.
  unfold nonempty_text. destruct text as [t'|].
  - destruct (string_empty t') eqn:He; split.
    + discriminate.
    + intros [[= ->] He']. congruence.
    + by intros [= ->].
    + by intros [[= ->] _].
  - split; [discriminate | by intros [? _]].
Qed.

Lemma spaced_nonempty (ts : list string) :
  ts <> [] -> string_empty (spaced ts) = false.
Proof. by destruct ts. Qed.

(** A segment with a text makes the loop's result non-empty. *)
Lemma collect_segments_nonempty (text_of : Z -> option string) (n i : Z)
    (t : string) :
  0 <= i < n -> text_of i = Some t -> string_empty t = false ->
  string_empty (collect_segments text_of n) = false.
Proof.
  intros Hi Ht He. rewrite collect_segments_unfold by lia.
  destruct (nonempty_text (text_of 0)) as [t0|] eqn:H0.
  - apply nonempty_text_Some in H0 as [_ H0].
    by apply string_empty_append.
  - change ("" +:+ ?s) with s. apply spaced_nonempty.
    assert (i <> 0) as Hne.
    { intros ->. rewrite Ht in H0. unfold nonempty_text in H0.
      by rewrite He in H0. }
    assert (t ∈ omap nonempty_text (text_of <$> seqZ 1 (n - 1))) as Hin.
    { apply list_elem_of_omap. exists (Some t). split.
      - apply list_elem_of_fmap. exists i. split; [done|].
        apply elem_of_seqZ. lia.
      - by apply nonempty_text_Some. }
    intros Hnil. rewrite Hnil in Hin. by apply elem_of_nil in Hin.
Qed.

(** ** nativeProcess *)

Section Process.

Context {C : Type}.

(** Every call takes one of four paths. *)
Lemma nativeProcess_cases (env : Env C) (st : State C) (jPcm : jshortArray)
    (length : Z) :
  (exists fmt args,
     (g_ctx st = None \/ jPcm = None \/ length <= 0 \/
      elements_available env = false) /\
     call (nativeProcess env jPcm length) st =
       Returned (NewStringUTF "", jPcm)
         (logged st (EvLog ANDROID_LOG_ERROR fmt args))) \/
  (exists a,
     g_ctx st <> None /\ jPcm = Some a /\ elements_available env = true /\
     Z.of_nat (List.length a) < length /\
     call (nativeProcess env jPcm length) st = Undefined) \/
  (exists c a fmt1 args1 prio2 fmt2 args2,
     g_ctx st = Some c /\ jPcm = Some a /\ elements_available env = true /\
     0 < length <= Z.of_nat (List.length a) /\
     let pcm := sample_to_float <$> take (Z.to_nat length) a in
     let r := whisper_full env c (bridge_wparams env) pcm length in
     call (nativeProcess env jPcm length) st =
       Returned
         (NewStringUTF
            (if r.1 =? 0
             then collect_segments (whisper_full_get_segment_text env r.2)
                    (whisper_full_n_segments env r.2)
             else ""),
          jPcm)
         {| g_ctx := Some r.2;
            trace := trace st ++
              [EvLog ANDROID_LOG_INFO fmt1 args1;
               EvFull c (bridge_wparams env) pcm length;
               EvLog prio2 fmt2 args2] |}).
Proof.
  destruct (g_ctx st) as [c|] eqn:Hc; cycle 1.
  { left. destruct (nativeProcess_rejected env st jPcm length)
      as (fmt & args & H); [by left|].
    exists fmt, args. split; [by left | done]. }
  destruct jPcm as [a|]; cycle 1.
  { left. destruct (nativeProcess_rejected env st None length)
      as (fmt & args & H); [by right; left|].
    exists fmt, args. split; [by right; left | done]. }
  destruct (Z.le_gt_cases length 0) as [Hle|Hgt].
  { left. destruct (nativeProcess_rejected env st (Some a) length)
      as (fmt & args & H); [by right; right|].
    exists fmt, args. split; [by right; right; left | done]. }
  destruct (elements_available env) eqn:Hpin; cycle 1.
  { left. destruct (nativeProcess_not_pinned env st c a length)
      as (fmt & args & H); [done..|].
    exists fmt, args. split; [by right; right; right | done]. }
  destruct (Z.lt_ge_cases (Z.of_nat (List.length a)) length) as [Hover|Hin].
  { right; left. exists a. repeat split; [done | done |].
    by apply (nativeProcess_overrun env st c). }
  right; right.
  destruct (nativeProcess_engine env st c a length)
    as (fmt1 & args1 & prio2 & fmt2 & args2 & H); [done | done | lia |].
  exists c, a, fmt1, args1, prio2, fmt2, args2.
  repeat split; [lia | lia | exact H].
Qed.

(** C3: with no context installed, a null sample buffer or a length that
    is not positive, [nativeProcess] returns the empty string, and the
    events of the call contain no run of the engine's transcription
    routine; the installed context is as before. *)
Theorem nativeProcess_rejects_without_engine (env : Env C) (st : State C)
    (jPcm : jshortArray) (length : Z) :
  g_ctx st = None \/ jPcm = None \/ length <= 0 ->
  exists st' evs,
    call (nativeProcess env jPcm length) st =
      Returned (NewStringUTF "", jPcm) st' /\
    g_ctx st' = g_ctx st /\
    trace st' = trace st ++ evs /\
    Forall (fun e => is_EvFull e = false) evs.
Proof.
  intros H.
  destruct (nativeProcess_rejected env st jPcm length H) as (fmt & args & Hrun).
  exists (logged st (EvLog ANDROID_LOG_ERROR fmt args)),
    [EvLog ANDROID_LOG_ERROR fmt args].
  repeat split; [exact Hrun|]. by constructor.
Qed.

(** C9: whenever [nativeProcess] returns, the elements of the caller's
    sample array are the ones it had when the call was made: the bridge
    only reads the borrowed elements and releases them with [JNI_ABORT]. *)
Theorem nativeProcess_keeps_samples (env : Env C) (st st' : State C)
    (jPcm : jshortArray) (length : Z) (r : jstring * jshortArray) :
  call (nativeProcess env jPcm length) st = Returned r st' ->
  r.2 = jPcm.
Proof.
  intros Hrun.
  destruct (nativeProcess_cases env st jPcm length)
    as [(fmt & args & _ & H) | [(a & _ & _ & _ & _ & H) |
        (c & a & f1 & a1 & p2 & f2 & a2 & _ & _ & _ & _ & H)]];
    rewrite H in Hrun; by simplify_eq.
Qed.

(** C10 (amended): every call returns, through each of its exit paths,
    what [NewStringUTF] gives for a string, except the call that has a
    context installed, gets the elements of the array handed out and
    passes a length beyond the number of elements.  The string is empty
    when no context is installed, the array is null, the length is not
    positive, the runtime does not hand out the elements, or the engine's
    run returns a nonzero code.  The bridge returns the result of
    [NewStringUTF] as it is, without looking at it. *)
Theorem nativeProcess_returns_string (env : Env C) (st : State C)
    (jPcm : jshortArray) (length : Z) :
  (g_ctx st <> None -> elements_available env = true ->
   forall a, jPcm = Some a -> length <= Z.of_nat (List.length a)) ->
  exists s st',
    call (nativeProcess env jPcm length) st =
      Returned (NewStringUTF s, jPcm) st' /\
    (g_ctx st = None \/ jPcm = None \/ length <= 0 \/
     elements_available env = false \/
     (exists c a,
        g_ctx st = Some c /\ jPcm = Some a /\
        (whisper_full env c (bridge_wparams env)
           (sample_to_float <$> take (Z.to_nat length) a) length).1 <> 0) ->
     s = "").
Proof.
  intros Hlen.
  destruct (nativeProcess_cases env st jPcm length)
    as [(fmt & args & _ & H) | [(a & Hc & Ha & Hpin & Hover & _) |
        (c & a & f1 & a1 & p2 & f2 & a2 & Hc & Ha & Hpin & Hin & H)]].
  - eexists _, _. split; [exact H | done].
  - specialize (Hlen Hc Hpin a Ha). lia.
  - cbv zeta in H. eexists _, _. split; [exact H|].
    intros [Hn | [Hn | [Hn | [Hn | (c' & a' & Hc' & Ha' & Hret)]]]];
      try congruence; try lia.
    simplify_eq.
    match goal with
    | |- (if ?x =? 0 then _ else _) = _ => by destruct (Z.eqb_spec x 0)
    end.
Qed.

End Process.

Section ProcessEngine.

Context {C : Type}.

(** C7: with a context installed, a non-null array and a positive length
    within the array, [nativeProcess] returns the empty string when the
    engine's run returns a nonzero code or leaves no segment, and a
    non-empty string when the engine is run, returns zero and leaves a
    segment whose text is neither null nor empty. *)
Theorem nativeProcess_engine_outcome (env : Env C) (st : State C) (c : C)
    (a : list Z) (length : Z) :
  g_ctx st = Some c ->
  0 < length <= Z.of_nat (List.length a) ->
  exists s st',
    call (nativeProcess env (Some a) length) st =
      Returned (NewStringUTF s, Some a) st' /\
    ((engine_run env c a length).1 <> 0 \/
     whisper_full_n_segments env (engine_run env c a length).2 <= 0 ->
     s = "") /\
    (elements_available env = true ->
     (engine_run env c a length).1 = 0 ->
     (exists i t,
        0 <= i < whisper_full_n_segments env (engine_run env c a length).2 /\
        whisper_full_get_segment_text env (engine_run env c a length).2 i
          = Some t /\
        t <> "") ->
     s <> "").
Proof.
  intros Hc Hlen.
  destruct (nativeProcess_cases env st (Some a) length)
    as [(fmt & args & Hwhy & H) | [(a' & _ & Ha & _ & Hover & _) |
        (c' & a' & f1 & a1 & p2 & f2 & a2 & Hc' & Ha & Hpin & _ & H)]].
  - eexists _, _. split; [exact H|]. split; [done|].
    intros Hpin. destruct Hwhy as [?|[?|[?|?]]]; congruence || lia.
  - simplify_eq. lia.
  - cbv zeta in H. simplify_eq. fold (engine_run env c a' length) in H.
    eexists _, _. split; [exact H|]. split.
    + intros [Hret | Hseg].
      * by destruct (Z.eqb_spec (engine_run env c a' length).1 0).
      * destruct (Z.eqb_spec (engine_run env c a' length).1 0); [|done].
        by apply collect_segments_none.
    + intros _ Hret (i & t & Hi & Ht & Hne).
      rewrite Hret. cbn [Z.eqb]. intros Hempty.
      pose proof (collect_segments_nonempty _ _ i t Hi Ht) as Hcol.
      rewrite Hempty in Hcol. destruct t; [done|]. by specialize (Hcol eq_refl).
Qed.

(** C5: in every call that returns, the float buffer handed to the engine
    holds at each index [i] below the length the binary32 whose value is
    the sample at [i] divided by 32768, without rounding; the sample
    -32768 becomes -1.0 and 32767 becomes 32767/32768.  The engine is
    handed such a buffer whenever a context is installed, the length is
    positive and the elements are handed out. *)
Theorem nativeProcess_pcm_exact (env : Env C) (st st' : State C)
    (a : list Z) (length : Z) (r : jstring * jshortArray) :
  Forall is_jshort a ->
  call (nativeProcess env (Some a) length) st = Returned r st' ->
  exists evs,
    trace st' = trace st ++ evs /\
    (g_ctx st <> None -> 0 < length -> elements_available env = true ->
     exists c wparams pcm, EvFull c wparams pcm length ∈ evs) /\
    (forall c wparams pcm n,
       EvFull c wparams pcm n ∈ evs ->
       n = length /\
       forall (i : nat) (s : Z),
         a !! i = Some s -> Z.of_nat i < length ->
         exists x q,
           pcm !! i = Some x /\ x = sample_to_float s /\
           float_value x = Some q /\ (q == s # 32768)%Q) /\
    sample_to_float (-32768) = float_of_int (-1) /\
    (exists q, float_value (sample_to_float 32767) = Some q /\
               (q == 32767 # 32768)%Q).
Proof.
  intros Hshort Hrun.
  assert (Hex : exists q, float_value (sample_to_float 32767) = Some q /\
                          (q == 32767 # 32768)%Q).
  { apply sample_to_float_value. unfold is_jshort. lia. }
  destruct (nativeProcess_cases env st (Some a) length)
    as [(fmt & args & Hwhy & H) | [(a' & _ & _ & _ & _ & H) |
        (c & a' & f1 & a1 & p2 & f2 & a2 & Hc & Ha & Hpin & Hin & H)]];
    rewrite H in Hrun; [| discriminate |].
  - injection Hrun as _ <-. eexists. split; [reflexivity|].
    split; [|split; [|by split]].
    + intros Hctx Hlen Hpin.
      destruct Hwhy as [?|[?|[?|?]]]; congruence || lia.
    + intros c wparams pcm n Hin.
      apply list_elem_of_singleton in Hin. discriminate.
  - cbv zeta in Hrun. injection Hrun as _ <-. simplify_eq.
    eexists. split; [reflexivity|].
    split; [|split; [|by split]].
    + intros _ _ _. eexists _, _, _.
      apply list_elem_of_further, list_elem_of_here.
    + intros c' wparams pcm n Hev.
      rewrite !elem_of_cons, elem_of_nil in Hev.
      destruct Hev as [Hev | [Hev | [Hev | []]]]; simplify_eq.
      split; [done|]. intros i s Hs Hi.
      destruct (sample_to_float_value s) as (q & Hq & Hval).
      { rewrite Forall_lookup in Hshort. by eapply Hshort. }
      exists (sample_to_float s), q. repeat split; [|done..].
      rewrite list_lookup_fmap.
      assert (take (Z.to_nat length) a' !! i = Some s) as ->; [|done].
      apply lookup_take_Some. split; [done | lia].
Qed.

End ProcessEngine.

(** ** nativeInit and nativeRelease *)

Section Lifecycle.

Context {C : Type}.

Lemma discarded_g_ctx (fmt : string) (st : State C) :
  g_ctx (discarded fmt st) = None.
Proof. unfold discarded. by destruct (g_ctx st) eqn:Hc. Qed.

Lemma jstring_to_utf8_available (env : Env C) (s : string) :
  utf_chars_available env = true -> jstring_to_utf8 env (Some s) = s.
Proof.
  intros H. unfold jstring_to_utf8, GetStringUTFChars. by rewrite H.
Qed.

Lemma jstring_to_utf8_unavailable (env : Env C) (js : jstring) :
  utf_chars_available env = false -> jstring_to_utf8 env js = "".
Proof.
  intros H. unfold jstring_to_utf8, GetStringUTFChars. rewrite H.
  by destruct js.
Qed.

Lemma nativeRelease_run (st : State C) :
  exists fmt, call nativeRelease st = Returned tt (discarded fmt st).
Proof.
  eexists. unfold call, nativeRelease, discarded. cbn [guarded_body].
  unfold nativeRelease_body, mbind, M_bind, bind, get_g_ctx.
  destruct st as [[c|] tr]; cbn [g_ctx trace]; [|reflexivity].
  unfold LOGI, whisper_free, emit, set_g_ctx. cbn [g_ctx trace].
  rewrite <- app_assoc. reflexivity.
Qed.

(** Every call first frees the installed context and then takes one of
    three paths. *)
Lemma nativeInit_cases (env : Env C) (st : State C) (jModelPath : jstring) :
  exists fmt0,
    (exists fmt args,
       (jModelPath = None \/
        string_empty (jstring_to_utf8 env jModelPath) = true) /\
       call (nativeInit env jModelPath) st =
         Returned JNI_FALSE
           (logged (discarded fmt0 st) (EvLog ANDROID_LOG_ERROR fmt args))) \/
    (exists fmt1 args1 fmt2 args2,
       jModelPath <> None /\
       string_empty (jstring_to_utf8 env jModelPath) = false /\
       whisper_init_from_file env (jstring_to_utf8 env jModelPath) = None /\
       call (nativeInit env jModelPath) st =
         Returned JNI_FALSE
           {| g_ctx := None;
              trace := trace (discarded fmt0 st) ++
                [EvLog ANDROID_LOG_INFO fmt1 args1;
                 EvInitFromFile (jstring_to_utf8 env jModelPath);
                 EvLog ANDROID_LOG_ERROR fmt2 args2] |}) \/
    (exists h fmt1 args1 fmt2 args2,
       jModelPath <> None /\
       string_empty (jstring_to_utf8 env jModelPath) = false /\
       whisper_init_from_file env (jstring_to_utf8 env jModelPath) = Some h /\
       call (nativeInit env jModelPath) st =
         Returned JNI_TRUE
           {| g_ctx := Some h;
              trace := trace (discarded fmt0 st) ++
                [EvLog ANDROID_LOG_INFO fmt1 args1;
                 EvInitFromFile (jstring_to_utf8 env jModelPath);
                 EvLog ANDROID_LOG_INFO fmt2 args2] |}).
Proof.
  exists "Releasing previous Whisper context before init".
  set (st1 := discarded _ st).
  assert (Hpro :
    forall (k : M C jboolean),
      (ctx ← get_g_ctx;
       match ctx with
       | Some c =>
           LOGI "Releasing previous Whisper context before init" [];;
           whisper_free c;;
           set_g_ctx None
       | None => mret tt
       end;; k) st = k st1).
  { intros k. subst st1. unfold discarded, mbind, M_bind, bind, get_g_ctx.
    destruct st as [[c|] tr]; cbn [g_ctx trace]; [|reflexivity].
    unfold LOGI, whisper_free, emit, set_g_ctx. cbn [g_ctx trace].
    by rewrite <- app_assoc. }
  unfold call, nativeInit. cbn [guarded_body]. unfold nativeInit_body.
  rewrite Hpro.
  assert (Hnone : g_ctx st1 = None) by apply discarded_g_ctx.
  destruct jModelPath as [s|]; cycle 1.
  { left. eexists _, _. split; [by left|].
    unfold logged, LOGE, emit, mbind, M_bind, bind, mret, M_ret, ret.
    rewrite Hnone. reflexivity. }
  destruct (string_empty (jstring_to_utf8 env (Some s))) eqn:Hempty.
  { left. eexists _, _. split; [by right|].
    unfold logged, LOGE, emit, mbind, M_bind, bind, mret, M_ret, ret.
    rewrite Hnone. reflexivity. }
  right.
  unfold call_whisper_init_from_file, LOGI, LOGE, emit, set_g_ctx, mbind,
    M_bind, bind, mret, M_ret, ret.
  cbn [g_ctx trace].
  destruct (whisper_init_from_file env (jstring_to_utf8 env (Some s)))
    as [h|] eqn:Hload.
  - right. eexists h, _, _, _, _. repeat split; [done|].
    cbn [g_ctx trace]. rewrite <- !app_assoc. reflexivity.
  - left. eexists _, _, _, _. repeat split; [done|].
    cbn [g_ctx trace]. rewrite <- !app_assoc. reflexivity.
Qed.

Lemma nativeInit_returns (env : Env C) (st : State C) (jModelPath : jstring) :
  exists ok st', call (nativeInit env jModelPath) st = Returned ok st'.
Proof.
  destruct (nativeInit_cases env st jModelPath)
    as (fmt0 & [(fmt & args & _ & H) |
                [(f1 & a1 & f2 & a2 & _ & _ & _ & H) |
                 (h & f1 & a1 & f2 & a2 & _ & _ & _ & H)]]);
    by eexists _, _.
Qed.

(** C2: [nativeInit] returns true exactly when the model path is not
    null, the path string it obtains from it is not empty, and the
    engine's load routine returns a handle for it; the handle is then
    installed.  When it returns false no context is installed.  When the
    runtime hands out the bytes of the path, the path string is the Java
    string itself. *)
Theorem nativeInit_result (env : Env C) (st : State C)
    (jModelPath : jstring) :
  exists ok st',
    call (nativeInit env jModelPath) st = Returned ok st' /\
    (ok = JNI_TRUE <->
     jModelPath <> None /\
     string_empty (jstring_to_utf8 env jModelPath) = false /\
     is_Some (whisper_init_from_file env (jstring_to_utf8 env jModelPath))) /\
    (ok = JNI_TRUE ->
     g_ctx st' = whisper_init_from_file env (jstring_to_utf8 env jModelPath)) /\
    (ok = JNI_FALSE -> g_ctx st' = None) /\
    (utf_chars_available env = true ->
     ok = JNI_TRUE <->
     exists s,
       jModelPath = Some s /\ s <> "" /\
       is_Some (whisper_init_from_file env s)).
Proof.
  assert (Hjava :
    utf_chars_available env = true ->
    (jModelPath <> None /\
     string_empty (jstring_to_utf8 env jModelPath) = false /\
     is_Some (whisper_init_from_file env (jstring_to_utf8 env jModelPath))) <->
    exists s,
      jModelPath = Some s /\ s <> "" /\
      is_Some (whisper_init_from_file env s)).
  { intros Hutf. destruct jModelPath as [s|].
    - rewrite (jstring_to_utf8_available env s Hutf). split.
      + intros (_ & He & Hload). exists s. by destruct s.
      + intros (s' & [= <-] & Hne & Hload). by destruct s.
    - split; [by intros (? & _) | by intros (s & ? & _)]. }
  destruct (nativeInit_cases env st jModelPath)
    as (fmt0 & [(fmt & args & Hwhy & H) |
                [(f1 & a1 & f2 & a2 & Hp & He & Hload & H) |
                 (h & f1 & a1 & f2 & a2 & Hp & He & Hload & H)]]);
    eexists _, _; (split; [exact H|]).
  - assert (Hno : ~ (jModelPath <> None /\
       string_empty (jstring_to_utf8 env jModelPath) = false /\
       is_Some (whisper_init_from_file env (jstring_to_utf8 env jModelPath)))).
    { intros (Hp & He & _). destruct Hwhy; congruence. }
    split; [by split|]. split; [done|].
    split; [intros _; apply discarded_g_ctx|].
    intros Hutf. rewrite <- (Hjava Hutf). by split.
  - assert (Hno : ~ (jModelPath <> None /\
       string_empty (jstring_to_utf8 env jModelPath) = false /\
       is_Some (whisper_init_from_file env (jstring_to_utf8 env jModelPath)))).
    { intros (_ & _ & Hsome). rewrite Hload in Hsome. by destruct Hsome. }
    split; [by split|]. split; [done|]. split; [done|].
    intros Hutf. rewrite <- (Hjava Hutf). by split.
  - assert (Hyes : jModelPath <> None /\
       string_empty (jstring_to_utf8 env jModelPath) = false /\
       is_Some (whisper_init_from_file env (jstring_to_utf8 env jModelPath))).
    { rewrite Hload. by eauto. }
    split; [by split|]. split; [done|]. split; [done|].
    intros Hutf. rewrite <- (Hjava Hutf). by split.
Qed.

(** C6: a call of [nativeInit] that finds a context installed frees it
    first: behind the log line announcing it, the free of the old context
    is the first event of the call, whatever the path argument and whatever
    the outcome, and is the only free.  Afterwards the installed context
    is the one the call loaded, and none when the call fails. *)
Theorem nativeInit_frees_previous (env : Env C) (st : State C)
    (jModelPath : jstring) (c : C) :
  g_ctx st = Some c ->
  exists ok st' fmt evs,
    call (nativeInit env jModelPath) st = Returned ok st' /\
    trace st' =
      trace st ++ EvLog ANDROID_LOG_INFO fmt [] :: EvFree c :: evs /\
    Forall (fun e => is_EvFree e = false) evs /\
    (ok = JNI_FALSE -> g_ctx st' = None) /\
    (ok = JNI_TRUE ->
     g_ctx st' = whisper_init_from_file env (jstring_to_utf8 env jModelPath)).
Proof.
  intros Hc.
  destruct (nativeInit_cases env st jModelPath)
    as (fmt0 & [(fmt & args & Hwhy & H) |
                [(f1 & a1 & f2 & a2 & Hp & He & Hload & H) |
                 (h & f1 & a1 & f2 & a2 & Hp & He & Hload & H)]]);
    unfold logged, discarded in H; rewrite Hc in H; cbn [g_ctx trace] in H;
    rewrite <- app_assoc in H; cbn [app] in H;
    eexists _, _, fmt0, _; (split; [exact H|]); cbn [g_ctx trace];
    (split; [reflexivity|]);
    (split; [rewrite ?Forall_cons; by rewrite Forall_nil|]);
    unfold JNI_TRUE, JNI_FALSE; split; intros; congruence.
Qed.

End Lifecycle.

(** After [nativeInit] and [nativeRelease], whatever the path and the
    outcome of the load, [nativeProcess] returns the empty string. *)
Lemma init_release_process {C} (env1 env2 : Env C) (st : State C)
    (jModelPath : jstring) (jPcm : jshortArray) (length : Z) :
  exists ok st1 st2 st3,
    call (nativeInit env1 jModelPath) st = Returned ok st1 /\
    call nativeRelease st1 = Returned tt st2 /\
    call (nativeProcess env2 jPcm length) st2 =
      Returned (NewStringUTF "", jPcm) st3.
Proof.
  destruct (nativeInit_returns env1 st jModelPath) as (ok & st1 & Hinit).
  destruct (nativeRelease_run st1) as (fmt & Hrel).
  destruct (nativeProcess_rejected env2 (discarded fmt st1) jPcm length)
    as (fmt' & args & Hrun); [left; apply discarded_g_ctx|].
  by eexists ok, st1, _, _.
Qed.

(** ** The bridge on the scripted engine *)

(** C1 fails on the code: the engine leaves the two segments [""] and
    ["hello"]; the specification's transcript is ["hello"], and
    [nativeProcess] returns [" hello"], because the separator is written
    whenever the index is positive, not whenever a text went before. *)
Theorem nativeProcess_leading_space :
  (exists st',
     call (nativeProcess (scripted_env 4 true 0 [Some ""; Some "hello"])
             (Some [0; 0]) 2) loaded =
       Returned (NewStringUTF " hello", Some [0; 0]) st') /\
  spec_transcript
    (segment_texts
       (whisper_full_get_segment_text
          (scripted_env 4 true 0 [Some ""; Some "hello"])
          [Some ""; Some "hello"]) 2) = "hello".
Proof. split; [eexists; vm_compute; reflexivity | vm_compute; reflexivity]. Qed.

(** The same engine with a text in segment 0: the transcript of the
    specification. *)
Example nativeProcess_joined :
  exists st',
    call (nativeProcess
            (scripted_env 4 true 0 [Some "hello"; None; Some ""; Some "world"])
            (Some [0; 0]) 2) loaded =
      Returned (NewStringUTF "hello world", Some [0; 0]) st'.
Proof. eexists. vm_compute. reflexivity. Qed.

(** C10, as stated, fails: a length of 2 with an array of one element makes
    the conversion loop read [buf[1]], past the borrowed elements. *)
Lemma nativeProcess_overrun_undefined :
  call (nativeProcess (scripted_env 4 true 0 []) (Some [0]) 2) loaded =
    Undefined.
Proof. vm_compute. reflexivity. Qed.

(** [nativeProcess] before any [nativeInit]. *)
Lemma nativeProcess_rejects_without_engine_witness :
  (g_ctx (@fresh) = None \/ Some [1; 2] = @None (list Z) \/ 2 <= 0) /\
  exists st' evs,
    call (nativeProcess (scripted_env 4 true 0 [Some "hello"])
            (Some [1; 2]) 2) fresh =
      Returned (NewStringUTF "", Some [1; 2]) st' /\
    g_ctx st' = g_ctx fresh /\
    trace st' = trace fresh ++ evs /\
    Forall (fun e => is_EvFull e = false) evs.
Proof.
  assert (H : g_ctx (@fresh) = None \/ Some [1; 2] = @None (list Z) \/ 2 <= 0)
    by (left; reflexivity).
  split; [exact H|].
  exact (nativeProcess_rejects_without_engine
           (scripted_env 4 true 0 [Some "hello"]) fresh (Some [1; 2]) 2 H).
Defined.

(** A run of the engine on the samples 1, 2. *)
Lemma nativeProcess_keeps_samples_witness :
  exists r st',
    call (nativeProcess (scripted_env 4 true 0 [Some "hello"])
            (Some [1; 2]) 2) loaded = Returned r st' /\
    r.2 = Some [1; 2].
Proof.
  eexists _, _.
  assert (H : call (nativeProcess (scripted_env 4 true 0 [Some "hello"])
                      (Some [1; 2]) 2) loaded = Returned _ _)
    by (vm_compute; reflexivity).
  split; [exact H|].
  exact (nativeProcess_keeps_samples _ _ _ _ _ _ H).
Defined.

(** A length beyond the array while no context is installed: the call
    returns before the elements are read. *)
Lemma nativeProcess_returns_string_witness :
  (g_ctx (@fresh) <> None ->
   elements_available (scripted_env 4 true 0 [Some "hello"]) = true ->
   forall a, Some [1; 2] = Some a -> 5 <= Z.of_nat (List.length a)) /\
  exists s st',
    call (nativeProcess (scripted_env 4 true 0 [Some "hello"])
            (Some [1; 2]) 5) fresh =
      Returned (NewStringUTF s, Some [1; 2]) st' /\
    (g_ctx (@fresh) = None \/ Some [1; 2] = @None (list Z) \/ 5 <= 0 \/
     elements_available (scripted_env 4 true 0 [Some "hello"]) = false \/
     (exists c a,
        g_ctx (@fresh) = Some c /\ Some [1; 2] = Some a /\
        (whisper_full (scripted_env 4 true 0 [Some "hello"]) c
           (bridge_wparams (scripted_env 4 true 0 [Some "hello"]))
           (sample_to_float <$> take (Z.to_nat 5) a) 5).1 <> 0) ->
     s = "").
Proof.
  assert (H : g_ctx (@fresh) <> None ->
              elements_available (scripted_env 4 true 0 [Some "hello"]) = true ->
              forall a, Some [1; 2] = Some a -> 5 <= Z.of_nat (List.length a)).
  { intros Hctx. by destruct Hctx. }
  split; [exact H|].
  exact (nativeProcess_returns_string
           (scripted_env 4 true 0 [Some "hello"]) fresh (Some [1; 2]) 5 H).
Defined.

(** The engine leaves the one segment ["hello"]. *)
Lemma nativeProcess_engine_outcome_witness :
  g_ctx loaded = Some [] /\
  0 < 2 <= Z.of_nat (List.length [1; 2]) /\
  exists s st',
    call (nativeProcess (scripted_env 4 true 0 [Some "hello"])
            (Some [1; 2]) 2) loaded =
      Returned (NewStringUTF s, Some [1; 2]) st' /\
    s <> "".
Proof.
  assert (H1 : g_ctx loaded = Some []) by reflexivity.
  assert (H2 : 0 < 2 <= Z.of_nat (List.length [1; 2])) by (cbn; lia).
  split; [exact H1|]. split; [exact H2|].
  destruct (nativeProcess_engine_outcome
              (scripted_env 4 true 0 [Some "hello"]) loaded [] [1; 2] 2 H1 H2)
    as (s & st' & Hrun & _ & Hne).
  exists s, st'. split; [exact Hrun|].
  apply Hne; [reflexivity | reflexivity |].
  exists 0, "hello".
  split; [split; [lia | vm_compute; reflexivity]|].
  split; [reflexivity | discriminate].
Defined.

(** The two extreme samples. *)
Lemma nativeProcess_pcm_exact_witness :
  Forall is_jshort [-32768; 32767] /\
  exists r st',
    call (nativeProcess (scripted_env 4 true 0 [Some "hello"])
            (Some [-32768; 32767]) 2) loaded = Returned r st' /\
    exists evs,
      trace st' = trace loaded ++ evs /\
      forall c wparams pcm n,
        EvFull c wparams pcm n ∈ evs ->
        n = 2 /\
        forall (i : nat) (s : Z),
          [-32768; 32767] !! i = Some s -> Z.of_nat i < 2 ->
          exists x q,
            pcm !! i = Some x /\ x = sample_to_float s /\
            float_value x = Some q /\ (q == s # 32768)%Q.
Proof.
  assert (H1 : Forall is_jshort [-32768; 32767]).
  { unfold is_jshort. repeat constructor; lia. }
  split; [exact H1|].
  eexists _, _.
  assert (H2 : call (nativeProcess (scripted_env 4 true 0 [Some "hello"])
                       (Some [-32768; 32767]) 2) loaded = Returned _ _)
    by (vm_compute; reflexivity).
  split; [exact H2|].
  destruct (nativeProcess_pcm_exact _ _ _ _ _ _ H1 H2)
    as (evs & Htrace & _ & Hpcm & _).
  exists evs. split; [exact Htrace | exact Hpcm].
Defined.

(** A re-initialisation with a model file that does not load. *)
Lemma nativeInit_frees_previous_witness :
  g_ctx loaded = Some [] /\
  exists ok st' fmt evs,
    call (nativeInit (scripted_env 4 true 0 []) (Some "missing.bin")) loaded =
      Returned ok st' /\
    trace st' =
      trace loaded ++ EvLog ANDROID_LOG_INFO fmt [] :: EvFree [] :: evs /\
    Forall (fun e => is_EvFree e = false) evs /\
    (ok = JNI_FALSE -> g_ctx st' = None) /\
    (ok = JNI_TRUE ->
     g_ctx st' =
       whisper_init_from_file (scripted_env 4 true 0 [])
         (jstring_to_utf8 (scripted_env 4 true 0 []) (Some "missing.bin"))).
Proof.
  assert (H : g_ctx loaded = Some []) by reflexivity.
  split; [exact H|].
  exact (nativeInit_frees_previous
           (scripted_env 4 true 0 []) loaded (Some "missing.bin") [] H).
Defined.

(** A failed re-initialisation leaves the bridge uninitialised, and a
    later [nativeProcess] returns the empty string. *)
Example reinit_missing_model :
  exists st',
    call (nativeInit (scripted_env 4 true 0 []) (Some "missing.bin")) loaded =
      Returned JNI_FALSE st' /\
    g_ctx st' = None.
Proof. eexists. split; [vm_compute; reflexivity | reflexivity]. Qed.

(** Initialising twice with the same path succeeds both times. *)
Example init_twice :
  exists st1 st2,
    call (nativeInit (scripted_env 4 true 0 []) (Some "ggml-base.bin")) fresh =
      Returned JNI_TRUE st1 /\
    call (nativeInit (scripted_env 4 true 0 []) (Some "ggml-base.bin")) st1 =
      Returned JNI_TRUE st2 /\
    g_ctx st2 = Some [].
Proof.
  eexists _, _.
  split; [vm_compute; reflexivity|].
  split; [vm_compute; reflexivity | reflexivity].
Qed.

(** ** Concurrent callers *)

Section Exclusion.

Context {C : Type}.

Lemma mutex_inv_initial (m : machine C) : initial m -> mutex_inv m.
Proof.
  intros (Hfree & Hbusy & Hout). repeat split.
  - intros t r Ht. by specialize (Hout _ _ Ht).
  - intros t Ht. congruence.
  - by rewrite Hfree, Hbusy.
Qed.

Lemma mutex_inv_step (m m' : machine C) (l : label C) :
  mutex_inv m -> step m l m' -> mutex_inv m'.
Proof.
  intros (Hown & Hheld & Hbusy) Hstep.
  destruct Hstep as [m t r Ht | m t r Ht Hfree | m t r a st' Ht Hrun];
    repeat split; cbn [g_mutex busy threads].
  - intros t' r' Ht'. apply lookup_insert_Some in Ht' as [[_ ?]|[_ Ht']];
      [done | by eapply Hown].
  - intros t' Hm. destruct (Hheld t' Hm) as [r' Hr'].
    exists r'. rewrite lookup_insert_ne; [done | congruence].
  - done.
  - intros t' r' Ht'. apply lookup_insert_Some in Ht' as [[-> _]|[_ Ht']];
      [done|]. specialize (Hown _ _ Ht'). congruence.
  - intros t' [= <-]. exists r. by rewrite lookup_insert_eq.
  - by rewrite Hbusy, Hfree.
  - intros t' r' Ht'. apply lookup_insert_Some in Ht' as [[_ ?]|[Hne Ht']];
      [done|]. pose proof (Hown _ _ Ht) as Ho.
    pose proof (Hown _ _ Ht') as Ho'. congruence.
  - intros t' Hm. discriminate.
  - rewrite Hbusy, (Hown _ _ Ht). done.
Qed.

Lemma mutex_inv_run (m m' : machine C) (ls : list (label C)) :
  mutex_inv m -> run m ls m' -> mutex_inv m'.
Proof.
  intros Hinv Hrun. induction Hrun as [m | m l m' ls m'' Hstep _ IH];
    [done|]. apply IH. by eapply mutex_inv_step.
Qed.

(** The entries and returns of an execution alternate. *)
Lemma run_serial (m m' : machine C) (ls : list (label C)) :
  mutex_inv m -> run m ls m' -> serial (g_mutex m) ls = true.
Proof.
  intros Hinv Hrun. induction Hrun as [m | m l m' ls m'' Hstep _ IH];
    [done|].
  pose proof (mutex_inv_step _ _ _ Hinv Hstep) as Hinv'.
  specialize (IH Hinv'). destruct Hinv as (Hown & _ & _).
  destruct Hstep as [m t r Ht | m t r Ht Hfree | m t r a st' Ht Hrun'];
    cbn [serial g_mutex] in *.
  - exact IH.
  - by rewrite Hfree.
  - rewrite (Hown _ _ Ht), Nat.eqb_refl. exact IH.
Qed.

(** The bridge is in the state the returned bodies leave when run one
    after the other. *)
Lemma run_replay (m m' : machine C) (ls : list (label C)) :
  run m ls m' -> replay (completed ls) (bridge m) = Some (bridge m').
Proof.
  intros Hrun. induction Hrun as [m | m l m' ls m'' Hstep _ IH]; [done|].
  destruct Hstep as [m t r Ht | m t r Ht Hfree | m t r a st' Ht Hrun'];
    cbn [completed omap list_omap replay bridge] in *; [done | done |].
  unfold call. by rewrite Hrun'.
Qed.

(** C8: in every execution of concurrent callers that starts with no
    thread in the bridge, at most one thread is inside the body of
    [nativeInit], [nativeRelease] or [nativeProcess] at any time: that
    thread owns [g_mutex], the count of bodies being executed never
    exceeds 1, entries and returns alternate, and the bridge is in the
    state the returned bodies leave when run one after the other.  The
    engine is only run inside the body of [nativeProcess], so two runs of
    the engine never overlap. *)
Theorem bodies_exclusive (m0 m : machine C) (ls : list (label C)) :
  initial m0 ->
  run m0 ls m ->
  (forall t1 t2 r1 r2,
     threads m !! t1 = Some (Inside r1) ->
     threads m !! t2 = Some (Inside r2) ->
     t1 = t2 /\ g_mutex m = Some t1) /\
  (busy m <= 1)%nat /\
  serial None ls = true /\
  replay (completed ls) (bridge m0) = Some (bridge m).
Proof.
  intros Hinit Hrun.
  pose proof (mutex_inv_initial m0 Hinit) as Hinv0.
  destruct (mutex_inv_run m0 m ls Hinv0 Hrun) as (Hown & _ & Hbusy).
  split; [|split; [|split]].
  - intros t1 t2 r1 r2 H1 H2.
    pose proof (Hown _ _ H1) as Ho1. pose proof (Hown _ _ H2) as Ho2.
    split; [congruence | done].
  - rewrite Hbusy. destruct (g_mutex m); lia.
  - destruct Hinit as (Hfree & _). rewrite <- Hfree.
    by apply (run_serial m0 m).
  - by apply run_replay.
Qed.

(** While a thread is inside a body, a thread blocked at its [lock_guard]
    stays blocked. *)
Lemma lock_waits (m m' : machine C) (l : label C) (t t' : nat)
    (r r' : request C) :
  mutex_inv m ->
  threads m !! t = Some (Inside r) ->
  threads m !! t' = Some (Blocked r') ->
  step m l m' ->
  threads m' !! t' <> Some (Inside r').
Proof.
  intros (Hown & _ & _) Ht Ht' Hstep.
  pose proof (Hown _ _ Ht) as Hheld.
  assert (t <> t') as Hne by congruence.
  destruct Hstep as [m t0 r0 Ht0 | m t0 r0 Ht0 Hfree | m t0 r0 a st' Ht0 Hrun];
    cbn [threads].
  - intros Hin. apply lookup_insert_Some in Hin as [[_ ?]|[_ Hin]]; congruence.
  - congruence.
  - intros Hin. apply lookup_insert_Some in Hin as [[_ ?]|[_ Hin]]; congruence.
Qed.

End Exclusion.

Lemma two_callers_initial : initial two_callers.
Proof.
  repeat split. intros t th Ht. cbn [threads two_callers] in Ht.
  apply lookup_insert_Some in Ht as [[_ <-]|[_ Ht]]; [done|].
  by apply lookup_singleton_Some in Ht as [_ <-].
Qed.

(** Two entries without a return in between are not serial. *)
Example overlap_not_serial :
  serial None [LEnter 0 demo_request; LEnter 1 demo_request] = false.
Proof. reflexivity. Qed.

Lemma demo_run : exists m, run two_callers demo_labels m.
Proof.
  eexists. unfold demo_labels.
  eapply run_step; [apply step_call; reflexivity|].
  eapply run_step; [apply step_call; reflexivity|].
  eapply run_step; [apply step_lock; reflexivity|].
  eapply run_step; [apply step_return; [reflexivity | vm_compute; reflexivity]|].
  eapply run_step; [apply step_lock; reflexivity|].
  apply run_done.
Defined.

(** Two callers of [nativeProcess]: the second enters after the first has
    returned. *)
Lemma bodies_exclusive_witness :
  initial two_callers /\
  exists m,
    run two_callers demo_labels m /\
    (forall t1 t2 r1 r2,
       threads m !! t1 = Some (Inside r1) ->
       threads m !! t2 = Some (Inside r2) ->
       t1 = t2 /\ g_mutex m = Some t1) /\
    (busy m <= 1)%nat /\
    serial None demo_labels = true /\
    replay (completed demo_labels) (bridge two_callers) = Some (bridge m).
Proof.
  split; [exact two_callers_initial|].
  destruct demo_run as [m Hrun].
  exists m. split; [exact Hrun|].
  exact (bodies_exclusive two_callers m demo_labels two_callers_initial Hrun).
Defined.

(** * Further properties *)

(** ** Thread count and sample conversion *)

(** X1: a reported concurrency of 2^31 or more is negative once converted
    to [int], so the thread count is 2. *)
Theorem choose_num_threads_large (hw : Z) :
  2 ^ 31 <= hw < 2 ^ 32 -> choose_num_threads hw = 2.
Proof.
  intros Hhw. unfold choose_num_threads.
  destruct (Z.eqb_spec hw 0); [lia|].
  rewrite static_cast_int_large by lia.
  destruct (Z.ltb_spec (hw - 2 ^ 32) 2); [reflexivity | lia].
Qed.

(** The largest [unsigned int]. *)
Lemma choose_num_threads_large_witness :
  2 ^ 31 <= 4294967295 < 2 ^ 32 /\ choose_num_threads 4294967295 = 2.
Proof.
  assert (H : 2 ^ 31 <= 4294967295 < 2 ^ 32) by lia.
  split; [exact H | exact (choose_num_threads_large 4294967295 H)].
Defined.

(** X2: the thread count never decreases when the reported concurrency
    grows, as long as the count fits an [int]. *)
Theorem choose_num_threads_monotone (hw1 hw2 : Z) :
  0 <= hw1 <= hw2 -> hw2 < 2 ^ 31 ->
  choose_num_threads hw1 <= choose_num_threads hw2.
Proof.
  intros H12 H2. unfold choose_num_threads.
  destruct (Z.eqb_spec hw1 0) as [->|Hn1];
    destruct (Z.eqb_spec hw2 0) as [->|Hn2];
    rewrite ?static_cast_int_small by lia;
    repeat match goal with
           | |- context [?a <? ?b] => destruct (Z.ltb_spec a b)
           | |- context [?a >? ?b] => destruct (Z.gtb_spec a b)
           end; lia.
Qed.

Lemma choose_num_threads_monotone_witness :
  0 <= 1 <= 8 /\ 8 < 2 ^ 31 /\ choose_num_threads 1 <= choose_num_threads 8.
Proof.
  assert (H1 : 0 <= 1 <= 8) by lia.
  assert (H2 : 8 < 2 ^ 31) by lia.
  split; [exact H1|]. split; [exact H2|].
  exact (choose_num_threads_monotone 1 8 H1 H2).
Defined.

(** X3: every converted sample lies in the interval from -1 (included) to
    1 (excluded), the range the engine expects. *)
Theorem sample_to_float_unit_range (s : Z) :
  is_jshort s ->
  exists q,
    float_value (sample_to_float s) = Some q /\ (-1 <= q)%Q /\ (q < 1)%Q.
Proof.
  intros Hs. destruct (sample_to_float_value s Hs) as (q & Hq & Hval).
  exists q. split; [exact Hq|]. unfold is_jshort in Hs.
  rewrite Hval. unfold Qle, Qlt. cbn [Qnum Qden]. lia.
Qed.

Lemma sample_to_float_unit_range_witness :
  is_jshort 32767 /\
  exists q,
    float_value (sample_to_float 32767) = Some q /\ (-1 <= q)%Q /\ (q < 1)%Q.
Proof.
  assert (H : is_jshort 32767) by (unfold is_jshort; lia).
  split; [exact H | exact (sample_to_float_unit_range 32767 H)].
Defined.

(** X4: the conversion loses nothing: two samples with the same float are
    the same sample. *)
Theorem sample_to_float_injective (s1 s2 : Z) :
  is_jshort s1 -> is_jshort s2 ->
  sample_to_float s1 = sample_to_float s2 -> s1 = s2.
Proof.
  intros H1 H2 Heq.
  destruct (sample_to_float_value s1 H1) as (q1 & Hq1 & Hv1).
  destruct (sample_to_float_value s2 H2) as (q2 & Hq2 & Hv2).
  rewrite Heq, Hq2 in Hq1. injection Hq1 as <-.
  rewrite Hv2 in Hv1. unfold Qeq in Hv1. cbn [Qnum Qden] in Hv1. lia.
Qed.

Lemma sample_to_float_injective_witness :
  is_jshort (-5) /\ is_jshort (-5) /\
  sample_to_float (-5) = sample_to_float (-5) /\ -5 = -5.
Proof.
  assert (H : is_jshort (-5)) by (unfold is_jshort; lia).
  split; [exact H|]. split; [exact H|]. split; [reflexivity|].
  exact (sample_to_float_injective (-5) (-5) H H eq_refl).
Defined.

(** X5: for a count that is not negative, the conversion loop is defined
    exactly when the count does not exceed the borrowed elements; it then
    yields one float per sample below the count, in order, and nothing
    else. *)
Theorem convert_pcm_spec (buf : list Z) (n_samples : Z) :
  0 <= n_samples ->
  (convert_pcm buf n_samples = None <->
   Z.of_nat (List.length buf) < n_samples) /\
  (forall pcm,
     convert_pcm buf n_samples = Some pcm ->
     Z.of_nat (List.length pcm) = n_samples /\
     forall i : nat,
       Z.of_nat i < n_samples ->
       pcm !! i = sample_to_float <$> buf !! i).
Proof.
  intros Hn.
  destruct (Z.lt_ge_cases (Z.of_nat (List.length buf)) n_samples) as [Hover|Hin].
  - rewrite convert_pcm_out_of_range by done. split; [done|]. discriminate.
  - rewrite convert_pcm_in_range by lia. split.
    + split; [discriminate | lia].
    + intros pcm [= <-]. split.
      * rewrite length_fmap, length_take. lia.
      * intros i Hi. rewrite list_lookup_fmap. f_equal.
        destruct (buf !! i) as [s|] eqn:Hs.
        -- apply lookup_take_Some. split; [done | lia].
        -- apply lookup_ge_None. apply lookup_ge_None in Hs.
           rewrite length_take. lia.
Qed.

(** Two of three borrowed samples. *)
Lemma convert_pcm_spec_witness :
  0 <= 2 /\
  (convert_pcm [-32768; 0; 32767] 2 = None <->
   Z.of_nat (List.length [-32768; 0; 32767]) < 2) /\
  (forall pcm,
     convert_pcm [-32768; 0; 32767] 2 = Some pcm ->
     Z.of_nat (List.length pcm) = 2 /\
     forall i : nat,
       Z.of_nat i < 2 ->
       pcm !! i = sample_to_float <$> [-32768; 0; 32767] !! i).
Proof.
  assert (H : 0 <= 2) by lia.
  split; [exact H | exact (convert_pcm_spec [-32768; 0; 32767] 2 H)].
Defined.

(** ** nativeRelease and nativeInit *)

Section LifecycleMore.

Context {C : Type}.

Lemma discarded_trace (fmt : string) (st : State C) :
  trace (discarded fmt st) =
    trace st ++
    match g_ctx st with
    | Some c => [EvLog ANDROID_LOG_INFO fmt []; EvFree c]
    | None => []
    end.
Proof.
  unfold discarded. destruct (g_ctx st); [done | by rewrite app_nil_r].
Qed.

Lemma discarded_none (fmt : string) (st : State C) :
  g_ctx st = None -> discarded fmt st = st.
Proof. intros H. unfold discarded. by rewrite H. Qed.

(** X6: [nativeRelease] frees the installed context once and leaves none
    installed; with none installed it changes nothing; and a second
    release after the first changes nothing either. *)
Theorem nativeRelease_idempotent (st : State C) :
  exists st',
    call nativeRelease st = Returned tt st' /\
    g_ctx st' = None /\
    (g_ctx st = None -> st' = st) /\
    (forall c, g_ctx st = Some c ->
       exists fmt,
         trace st' = trace st ++ [EvLog ANDROID_LOG_INFO fmt []; EvFree c]) /\
    call nativeRelease st' = Returned tt st'.
Proof.
  destruct (nativeRelease_run st) as (fmt & Hrun).
  exists (discarded fmt st). split; [exact Hrun|].
  split; [apply discarded_g_ctx|].
  split; [apply discarded_none|].
  split.
  - intros c Hc. exists fmt. by rewrite discarded_trace, Hc.
  - destruct (nativeRelease_run (discarded fmt st)) as (fmt' & Hrun').
    rewrite Hrun'. f_equal. apply discarded_none, discarded_g_ctx.
Qed.

(** X7: [nativeInit] asks the engine to load a model exactly once, with
    the path string it obtained, when that string is not empty, and never
    otherwise (a null path, an empty path, or bytes the runtime does not
    hand out); it never runs a transcription; and it frees a context
    exactly when one was installed. *)
Theorem nativeInit_engine_calls (env : Env C) (st : State C)
    (jModelPath : jstring) :
  exists ok st' evs,
    call (nativeInit env jModelPath) st = Returned ok st' /\
    trace st' = trace st ++ evs /\
    List.filter is_EvInitFromFile evs =
      (if string_empty (jstring_to_utf8 env jModelPath) then []
       else [EvInitFromFile (jstring_to_utf8 env jModelPath)]) /\
    count_events is_EvFull evs = 0%nat /\
    count_events is_EvFree evs = installed st.
Proof.
  assert (Hnull : jModelPath = None ->
                  string_empty (jstring_to_utf8 env jModelPath) = true)
    by (by intros ->).
  destruct (nativeInit_cases env st jModelPath)
    as (fmt0 & [(fmt & args & Hwhy & H) |
                [(f1 & a1 & f2 & a2 & Hp & He & Hload & H) |
                 (h & f1 & a1 & f2 & a2 & Hp & He & Hload & H)]]);
    eexists _, _, _; (split; [exact H|]);
    unfold logged; cbn [trace]; rewrite discarded_trace, <- app_assoc;
    (split; [reflexivity|]); unfold count_events, installed;
    rewrite !List.filter_app.
  - assert (string_empty (jstring_to_utf8 env jModelPath) = true) as ->
      by (destruct Hwhy; auto).
    by destruct (g_ctx st).
  - rewrite He. by destruct (g_ctx st).
  - rewrite He. by destruct (g_ctx st).
Qed.

End LifecycleMore.

(** ** nativeProcess *)

Section ProcessMore.

Context {C : Type}.

(** X8: [nativeProcess] is undefined exactly when a context is installed,
    the array is not null, the runtime hands out its elements and the
    length exceeds the number of elements. *)
Theorem nativeProcess_undefined_iff (env : Env C) (st : State C)
    (jPcm : jshortArray) (length : Z) :
  call (nativeProcess env jPcm length) st = Undefined <->
  g_ctx st <> None /\
  elements_available env = true /\
  exists a, jPcm = Some a /\ Z.of_nat (List.length a) < length.
Proof.
  destruct (nativeProcess_cases env st jPcm length)
    as [(fmt & args & Hwhy & H) | [(a & Hc & Ha & Hpin & Hover & H) |
        (c & a & f1 & a1 & p2 & f2 & a2 & Hc & Ha & Hpin & Hin & H)]].
  - rewrite H. split; [discriminate|].
    intros (Hc & Hpin & a & Ha & Hover).
    destruct Hwhy as [?|[?|[?|?]]]; congruence || lia.
  - split; [|done]. intros _. by eauto.
  - cbv zeta in H. rewrite H. split; [discriminate|].
    intros (_ & _ & a' & Ha' & Hover). simplify_eq. lia.
Qed.

(** X9: a call that returns never frees a context, never loads one and
    never changes whether one is installed. *)
Theorem nativeProcess_keeps_context (env : Env C) (st st' : State C)
    (jPcm : jshortArray) (length : Z) (r : jstring * jshortArray) :
  call (nativeProcess env jPcm length) st = Returned r st' ->
  installed st' = installed st /\
  exists evs,
    trace st' = trace st ++ evs /\
    count_events is_EvFree evs = 0%nat /\
    count_events is_EvInitFromFile evs = 0%nat.
Proof.
  intros Hrun.
  destruct (nativeProcess_cases env st jPcm length)
    as [(fmt & args & _ & H) | [(a & _ & _ & _ & _ & H) |
        (c & a & f1 & a1 & p2 & f2 & a2 & Hc & _ & _ & _ & H)]];
    rewrite H in Hrun; [| discriminate |].
  - injection Hrun as _ <-. split; [done|].
    eexists. split; [reflexivity|]. done.
  - cbv zeta in Hrun. injection Hrun as _ <-. split.
    + unfold installed. cbn [g_ctx]. by rewrite Hc.
    + eexists. split; [reflexivity|]. done.
Qed.

(** X10: in a call that returns, the engine's transcription routine is
    run at most once, and it is run exactly when a context is installed,
    the array is not null, the length is positive and the runtime hands
    out the elements. *)
Theorem nativeProcess_engine_runs_iff (env : Env C) (st st' : State C)
    (jPcm : jshortArray) (length : Z) (r : jstring * jshortArray) :
  call (nativeProcess env jPcm length) st = Returned r st' ->
  exists evs,
    trace st' = trace st ++ evs /\
    (count_events is_EvFull evs <= 1)%nat /\
    (count_events is_EvFull evs = 1%nat <->
     g_ctx st <> None /\ jPcm <> None /\ 0 < length /\
     elements_available env = true).
Proof.
  intros Hrun.
  destruct (nativeProcess_cases env st jPcm length)
    as [(fmt & args & Hwhy & H) | [(a & _ & _ & _ & _ & H) |
        (c & a & f1 & a1 & p2 & f2 & a2 & Hc & Ha & Hpin & Hin & H)]];
    rewrite H in Hrun; [| discriminate |].
  - injection Hrun as _ <-. eexists. split; [reflexivity|].
    unfold count_events. cbn. split; [lia|]. split; [discriminate|].
    intros (Hc & Hp & Hlen & Hpin).
    destruct Hwhy as [?|[?|[?|?]]]; congruence || lia.
  - cbv zeta in Hrun. injection Hrun as _ <-. eexists.
    split; [reflexivity|]. unfold count_events. cbn. split; [lia|].
    split; [|done]. intros _. repeat split; [congruence | congruence | lia | done].
Qed.

(** X11: whenever the engine's transcription routine is run, it gets the
    installed context, the length as the number of samples, a buffer of
    that many floats, and the parameters the bridge sets: between 2 and 4
    threads, no translation, no carried-over context, several segments
    allowed, nothing printed, no offset and the full duration, on top of
    the engine's greedy defaults. *)
Theorem nativeProcess_engine_params (env : Env C) (st st' : State C)
    (jPcm : jshortArray) (length : Z) (r : jstring * jshortArray)
    (c : C) (wparams : whisper_full_params) (pcm : list float) (n : Z) :
  call (nativeProcess env jPcm length) st = Returned r st' ->
  EvFull c wparams pcm n ∈ drop (List.length (trace st)) (trace st') ->
  g_ctx st = Some c /\
  n = length /\
  List.length pcm = Z.to_nat length /\
  2 <= n_threads wparams <= 4 /\
  n_threads wparams = choose_num_threads (hardware_concurrency env) /\
  strategy wparams =
    strategy (whisper_full_default_params env WHISPER_SAMPLING_GREEDY) /\
  translate wparams = false /\
  no_context wparams = true /\
  single_segment wparams = false /\
  print_realtime wparams = false /\
  print_progress wparams = false /\
  print_timestamps wparams = false /\
  print_special wparams = false /\
  offset_ms wparams = 0 /\
  duration_ms wparams = 0.
Proof.
  intros Hrun Hev.
  destruct (nativeProcess_cases env st jPcm length)
    as [(fmt & args & _ & H) | [(a & _ & _ & _ & _ & H) |
        (c' & a & f1 & a1 & p2 & f2 & a2 & Hc & Ha & Hpin & Hin & H)]];
    rewrite H in Hrun; [| discriminate |].
  - injection Hrun as _ <-. unfold logged in Hev. cbn [trace] in Hev.
    rewrite drop_app_length in Hev.
    apply list_elem_of_singleton in Hev. discriminate.
  - cbv zeta in Hrun. injection Hrun as _ <-. cbn [trace] in Hev.
    rewrite drop_app_length in Hev.
    rewrite !elem_of_cons, elem_of_nil in Hev.
    destruct Hev as [Hev | [Hev | [Hev | []]]]; simplify_eq.
    split; [done|]. split; [done|].
    split; [rewrite length_fmap, length_take; lia|].
    split; [apply choose_num_threads_range|].
    by repeat split.
Qed.

End ProcessMore.

Section Transcript.

Context {C : Type}.

Lemma segment_texts_none (text_of : Z -> option string) (n : Z) :
  n <= 0 -> segment_texts text_of n = [].
Proof.
  intros Hn. unfold segment_texts, seqZ.
  by replace (Z.to_nat n) with 0%nat by lia.
Qed.

(** X12: when the engine's run returns zero, the returned transcript is
    the reported texts that are neither null nor empty, in order, joined by
    single spaces, with one space in front when segment 0 has no text but
    a later segment has one.  In particular it is the joined texts
    whenever segment 0 has a text, and empty when no segment has one. *)
Theorem nativeProcess_transcript (env : Env C) (st : State C) (c : C)
    (a : list Z) (length : Z) :
  g_ctx st = Some c ->
  elements_available env = true ->
  0 < length <= Z.of_nat (List.length a) ->
  (engine_run env c a length).1 = 0 ->
  exists st',
    call (nativeProcess env (Some a) length) st =
      Returned
        (NewStringUTF
           match
             nonempty_text
               (whisper_full_get_segment_text env
                  (engine_run env c a length).2 0),
             omap nonempty_text
               (reported_texts env (engine_run env c a length).2)
           with
           | None, _ :: _ =>
               " " +:+
               spec_transcript
                 (reported_texts env (engine_run env c a length).2)
           | _, _ =>
               spec_transcript
                 (reported_texts env (engine_run env c a length).2)
           end,
         Some a) st'.
Proof.
  intros Hc Hpin Hlen Hret.
  destruct (nativeProcess_engine env st c a length Hc Hpin Hlen)
    as (f1 & a1 & p2 & f2 & a2 & H).
  cbv zeta in H. fold (engine_run env c a length) in H.
  rewrite Hret in H. cbn [Z.eqb] in H.
  eexists. rewrite H. do 3 f_equal.
  unfold reported_texts.
  set (c' := (engine_run env c a length).2).
  destruct (Z.le_gt_cases (whisper_full_n_segments env c') 0) as [Hn|Hn].
  - rewrite collect_segments_none, segment_texts_none by done.
    cbn [omap list_omap]. by destruct (nonempty_text _).
  - destruct (nonempty_text (whisper_full_get_segment_text env c' 0))
      as [t|] eqn:H0.
    + by rewrite (collect_segments_first_kept _ _ t) by (done || lia).
    + rewrite collect_segments_first_skipped by (done || lia).
      unfold spec_transcript. by destruct (omap nonempty_text _).
Qed.

End Transcript.

(** The engine leaves [""], ["hello"], a null text and ["world"]. *)
Lemma nativeProcess_transcript_witness :
  g_ctx loaded = Some [] /\
  elements_available
    (scripted_env 4 true 0 [Some ""; Some "hello"; None; Some "world"]) = true /\
  0 < 2 <= Z.of_nat (List.length [1; 2]) /\
  (engine_run
     (scripted_env 4 true 0 [Some ""; Some "hello"; None; Some "world"])
     [] [1; 2] 2).1 = 0 /\
  exists st',
    call (nativeProcess
            (scripted_env 4 true 0 [Some ""; Some "hello"; None; Some "world"])
            (Some [1; 2]) 2) loaded =
      Returned (NewStringUTF " hello world", Some [1; 2]) st'.
Proof.
  assert (H1 : g_ctx loaded = Some []) by reflexivity.
  assert (H2 : elements_available
                 (scripted_env 4 true 0
                    [Some ""; Some "hello"; None; Some "world"]) = true)
    by reflexivity.
  assert (H3 : 0 < 2 <= Z.of_nat (List.length [1; 2])) by (cbn; lia).
  assert (H4 : (engine_run
                  (scripted_env 4 true 0
                     [Some ""; Some "hello"; None; Some "world"])
                  [] [1; 2] 2).1 = 0) by reflexivity.
  split; [exact H1|]. split; [exact H2|]. split; [exact H3|].
  split; [exact H4|].
  exact (nativeProcess_transcript _ loaded [] [1; 2] 2 H1 H2 H3 H4).
Defined.

(** ** Sessions *)

Section Sessions.

Context {C : Type}.

Lemma count_events_app (p : event C -> bool) (evs1 evs2 : list (event C)) :
  count_events p (evs1 ++ evs2) =
    (count_events p evs1 + count_events p evs2)%nat.
Proof. unfold count_events. by rewrite List.filter_app, length_app. Qed.

(** One call: contexts installed before plus contexts loaded are the
    contexts freed plus those installed after. *)
Lemma call_balance (r : request C) (st st' : State C) (a : response) :
  call (entry r) st = Returned a st' ->
  exists evs,
    trace st' = trace st ++ evs /\
    (installed st + (if is_load a then 1 else 0) =
     count_events is_EvFree evs + installed st')%nat.
Proof.
  destruct r as [env jModelPath | | env jPcm length]; unfold call, entry;
    cbn [guarded_body]; unfold fmap, M_fmap, mbind, M_bind, mret, M_ret, bind, ret.
  - fold (call (nativeInit env jModelPath) st).
    destruct (nativeInit_cases env st jModelPath)
      as (fmt0 & [(fmt & args & _ & H) |
                  [(f1 & a1 & f2 & a2 & _ & _ & _ & H) |
                   (h & f1 & a1 & f2 & a2 & _ & _ & _ & H)]]);
      rewrite H; intros [= <- <-]; unfold logged; cbn [trace g_ctx];
      rewrite discarded_trace, <- app_assoc;
      (eexists; split; [reflexivity|]);
      rewrite count_events_app; unfold installed, count_events;
      cbn [g_ctx is_load]; rewrite ?discarded_g_ctx;
      by destruct (g_ctx st).
  - fold (call nativeRelease st).
    destruct (nativeRelease_run st) as (fmt & H). rewrite H.
    intros [= <- <-]. rewrite discarded_trace.
    eexists; split; [reflexivity|].
    unfold installed, count_events. rewrite discarded_g_ctx.
    by destruct (g_ctx st).
  - fold (call (nativeProcess env jPcm length) st).
    destruct (nativeProcess_cases env st jPcm length)
      as [(fmt & args & _ & H) | [(a0 & _ & _ & _ & _ & H) |
          (c & a0 & f1 & a1 & p2 & f2 & a2 & Hc & _ & _ & _ & H)]];
      rewrite H; [| discriminate |].
    + intros [= <- <-]. eexists; split; [reflexivity|].
      unfold installed, count_events. cbn. lia.
    + cbv zeta. intros [= <- <-]. eexists; split; [reflexivity|].
      unfold installed, count_events. cbn. rewrite Hc. lia.
Qed.


(** X14: a [nativeProcess] that follows a successful [nativeInit] runs the
    engine on the context that [nativeInit] loaded, and leaves installed
    the context as that run left it. *)
Theorem init_then_process (env1 env2 : Env C) (st : State C)
    (jModelPath : jstring) (h : C) (a : list Z) (length : Z) :
  string_empty (jstring_to_utf8 env1 jModelPath) = false ->
  whisper_init_from_file env1 (jstring_to_utf8 env1 jModelPath) = Some h ->
  elements_available env2 = true ->
  0 < length <= Z.of_nat (List.length a) ->
  exists st1 r st2,
    call (nativeInit env1 jModelPath) st = Returned JNI_TRUE st1 /\
    call (nativeProcess env2 (Some a) length) st1 = Returned r st2 /\
    EvFull h (bridge_wparams env2)
      (sample_to_float <$> take (Z.to_nat length) a) length ∈ trace st2 /\
    g_ctx st2 = Some (engine_run env2 h a length).2.
Proof.
  intros He Hload Hpin Hlen.
  destruct (nativeInit_cases env1 st jModelPath)
    as (fmt0 & [(fmt & args & Hwhy & H) |
                [(f1 & a1 & f2 & a2 & _ & _ & Hnone & H) |
                 (h' & f1 & a1 & f2 & a2 & _ & _ & Hsome & H)]]).
  - destruct Hwhy as [-> | Hwhy]; [discriminate He | congruence].
  - congruence.
  - assert (h' = h) as -> by congruence.
    match type of H with
    | _ = Returned _ ?s =>
        destruct (nativeProcess_engine env2 s h a length eq_refl Hpin Hlen)
          as (g1 & b1 & q2 & g2 & b2 & H')
    end.
    cbv zeta in H'. eexists _, _, _. split; [exact H|]. split; [exact H'|]. cbn [trace g_ctx]. split; [|done].
    apply elem_of_app. right.
    apply list_elem_of_further, list_elem_of_here.
Qed.

End Sessions.


Lemma init_then_process_witness :
  string_empty
    (jstring_to_utf8 (scripted_env 4 true 0 []) (Some "ggml-base.bin")) = false /\
  whisper_init_from_file (scripted_env 4 true 0 [])
    (jstring_to_utf8 (scripted_env 4 true 0 []) (Some "ggml-base.bin")) = Some [] /\
  elements_available (scripted_env 4 true 0 [Some "hello"]) = true /\
  0 < 2 <= Z.of_nat (List.length [1; 2]) /\
  exists st1 r st2,
    call (nativeInit (scripted_env 4 true 0 []) (Some "ggml-base.bin")) fresh =
      Returned JNI_TRUE st1 /\
    call (nativeProcess (scripted_env 4 true 0 [Some "hello"]) (Some [1; 2]) 2)
      st1 = Returned r st2 /\
    EvFull [] (bridge_wparams (scripted_env 4 true 0 [Some "hello"]))
      (sample_to_float <$> take (Z.to_nat 2) [1; 2]) 2 ∈ trace st2 /\
    g_ctx st2 =
      Some (engine_run (scripted_env 4 true 0 [Some "hello"]) [] [1; 2] 2).2.
Proof.
  assert (H1 : string_empty
                 (jstring_to_utf8 (scripted_env 4 true 0 [])
                    (Some "ggml-base.bin")) = false) by reflexivity.
  assert (H2 : whisper_init_from_file (scripted_env 4 true 0 [])
                 (jstring_to_utf8 (scripted_env 4 true 0 [])
                    (Some "ggml-base.bin")) = Some []) by reflexivity.
  assert (H3 : elements_available (scripted_env 4 true 0 [Some "hello"]) = true)
    by reflexivity.
  assert (H4 : 0 < 2 <= Z.of_nat (List.length [1; 2])) by (cbn; lia).
  split; [exact H1|]. split; [exact H2|]. split; [exact H3|].
  split; [exact H4|].
  exact (init_then_process (scripted_env 4 true 0 [])
           (scripted_env 4 true 0 [Some "hello"]) fresh (Some "ggml-base.bin")
           [] [1; 2] 2 H1 H2 H3 H4).
Defined.

(** A run of the engine on the samples 1, 2 with a context installed. *)
Lemma nativeProcess_keeps_context_witness :
  exists r st',
    call (nativeProcess (scripted_env 4 true 0 [Some "hello"])
            (Some [1; 2]) 2) loaded = Returned r st' /\
    installed st' = installed loaded /\
    exists evs,
      trace st' = trace loaded ++ evs /\
      count_events is_EvFree evs = 0%nat /\
      count_events is_EvInitFromFile evs = 0%nat.
Proof.
  eexists _, _.
  assert (H : call (nativeProcess (scripted_env 4 true 0 [Some "hello"])
                      (Some [1; 2]) 2) loaded = Returned _ _)
    by (vm_compute; reflexivity).
  split; [exact H|].
  exact (nativeProcess_keeps_context _ _ _ _ _ _ H).
Defined.

(** The same call when the runtime does not hand out the elements. *)
Lemma nativeProcess_engine_runs_iff_witness :
  exists r st',
    call (nativeProcess (scripted_env 4 false 0 [Some "hello"])
            (Some [1; 2]) 2) loaded = Returned r st' /\
    exists evs,
      trace st' = trace loaded ++ evs /\
      (count_events is_EvFull evs <= 1)%nat /\
      (count_events is_EvFull evs = 1%nat <->
       g_ctx loaded <> None /\ Some [1; 2] <> @None (list Z) /\ 0 < 2 /\
       elements_available (scripted_env 4 false 0 [Some "hello"]) = true).
Proof.
  eexists _, _.
  assert (H : call (nativeProcess (scripted_env 4 false 0 [Some "hello"])
                      (Some [1; 2]) 2) loaded = Returned _ _)
    by (vm_compute; reflexivity).
  split; [exact H|].
  exact (nativeProcess_engine_runs_iff _ _ _ _ _ _ H).
Defined.

(** Sixteen reported cores: the engine gets 4 threads. *)
Lemma nativeProcess_engine_params_witness :
  exists r st',
    call (nativeProcess (scripted_env 16 true 0 [Some "hello"])
            (Some [1; 2]) 2) loaded = Returned r st' /\
    EvFull [] (bridge_wparams (scripted_env 16 true 0 [Some "hello"]))
      (sample_to_float <$> [1; 2]) 2
      ∈ drop (List.length (trace loaded)) (trace st') /\
    n_threads (bridge_wparams (scripted_env 16 true 0 [Some "hello"])) = 4 /\
    no_context (bridge_wparams (scripted_env 16 true 0 [Some "hello"])) = true.
Proof.
  eexists _, _.
  assert (H : call (nativeProcess (scripted_env 16 true 0 [Some "hello"])
                      (Some [1; 2]) 2) loaded = Returned _ _)
    by (vm_compute; reflexivity).
  split; [exact H|].
  match type of H with
  | _ = Returned _ ?s =>
      assert (Hev : EvFull []
                      (bridge_wparams (scripted_env 16 true 0 [Some "hello"]))
                      (sample_to_float <$> [1; 2]) 2
                      ∈ drop (List.length (trace loaded)) (trace s))
        by (vm_compute; apply list_elem_of_further, list_elem_of_here)
  end.
  split; [exact Hev|].
  destruct (nativeProcess_engine_params _ _ _ _ _ _ _ _ _ _ H Hev)
    as (_ & _ & _ & _ & Hthreads & _ & _ & Hnc & _).
  split; [rewrite Hthreads; reflexivity | exact Hnc].
Defined.

(** ** Blocked callers *)

(** X15: in every execution that starts with no thread in the bridge, a
    caller blocked at the [lock_guard] either can enter its body at once
    or is waiting for another thread that is inside a body and owns
    [g_mutex]: the mutex is never left locked by a call that returned. *)
Theorem blocked_waits_for_owner {C} (m0 m : machine C) (ls : list (label C))
    (t : nat) (r : request C) :
  initial m0 ->
  run m0 ls m ->
  threads m !! t = Some (Blocked r) ->
  (exists m', step m (LEnter t r) m') \/
  (exists t' r',
     t' <> t /\ threads m !! t' = Some (Inside r') /\ g_mutex m = Some t').
Proof.
  intros Hinit Hrun Ht.
  pose proof (mutex_inv_run m0 m ls (mutex_inv_initial m0 Hinit) Hrun)
    as (_ & Hheld & _).
  destruct (g_mutex m) as [t'|] eqn:Hm.
  - right. destruct (Hheld t' eq_refl) as [r' Hr'].
    exists t', r'. repeat split; [congruence | done].
  - left. eexists. by apply step_lock.
Qed.

Lemma demo_blocked :
  exists m,
    run two_callers
      [LCall 0 demo_request; LCall 1 demo_request; LEnter 0 demo_request] m /\
    threads m !! 1%nat = Some (Blocked demo_request).
Proof.
  eexists. split.
  - eapply run_step; [apply step_call; reflexivity|].
    eapply run_step; [apply step_call; reflexivity|].
    eapply run_step; [apply step_lock; reflexivity|].
    apply run_done.
  - reflexivity.
Defined.

(** Thread 1 is blocked while thread 0 is inside. *)
Lemma blocked_waits_for_owner_witness :
  initial two_callers /\
  exists m,
    run two_callers
      [LCall 0 demo_request; LCall 1 demo_request; LEnter 0 demo_request] m /\
    threads m !! 1%nat = Some (Blocked demo_request) /\
    ((exists m', step m (LEnter 1 demo_request) m') \/
     (exists t' r',
        t' <> 1%nat /\ threads m !! t' = Some (Inside r') /\
        g_mutex m = Some t')).
Proof.
  split; [exact two_callers_initial|].
  destruct demo_blocked as (m & Hrun & Ht).
  exists m. split; [exact Hrun|]. split; [exact Ht|].
  exact (blocked_waits_for_owner two_callers m _ 1%nat demo_request
           two_callers_initial Hrun Ht).
Defined.
